(** * react-theme: the ThemeProvider of src/index.tsx

    A shallow embedding of the provider component, its two effects, the
    context value it publishes and the [useTheme] hook, over a model of the
    three browser surfaces the component talks to: the class list of the
    document root, [localStorage] and the [prefers-color-scheme] media query.

    JavaScript strings are [string]; a [Theme] is kept as a string, as at run
    time, because the storage read is only cast ([as Theme]) and any string
    can reach the state.

    Code that touches the browser lives in a state and exception monad [Js]
    over the [World]: a [Browser], or nothing where [window] is not defined.
    A browser global read in a world without window throws, which is what
    the [typeof window] guards of the source prevent.

    React is modelled as far as the component uses it: the two [useState]
    cells with the bail-out of a setter called with the current state,
    [useEffect] with its dependency list and cleanup function, [useMemo]
    with its dependency list, and [useContext]. The object [finalConfig] is
    built anew in every render; in a dependency list it is compared by
    identity, so it is represented there by the number of the render.

    The class list is modelled twice. [classList_add] and
    [classList_remove] are the calls on tokens the class list accepts;
    the provider built on them ([syncEffect], [render], [session]) is the
    component under the assumption that every configured class name is
    such a token. [DOMTokenList_add] and [DOMTokenList_remove] validate
    their tokens first and throw as the DOM does; the effect and the
    provider built on them ([syncEffectDom], [sessionChecked]) make no
    assumption on the class names. The two agree whenever the class names
    are valid tokens ([syncEffectChecked_valid], [sessionChecked_session]).

    Further assumptions on the environment: storage accepts every write;
    between two events nothing but the provider changes the class list of
    the root or the storage entry. *)

From stdpp Require Import base strings gmap list.

Open Scope string_scope.
Open Scope list_scope.

(** ** JavaScript completions *)

Inductive JsError :=
| ReferenceError (name : string)
| Error (message : string)
| DOMException (name : string).

Inductive Completion (A : Type) :=
| Normal (a : A)
| Throw (e : JsError).

Arguments Normal {A} a.
Arguments Throw {A} e.

(** ** The browser *)

(** Calls made on the document root, on storage and on the media query, in
    program order. The list is ghost state: it records the order of the
    calls and is read by no operation. *)
Inductive DomCall :=
| ClassListAdd (token : string)
| ClassListRemove (tokens : list string)
| SetItem (key value : string)
| GetComputedStyle
| AddChangeListener
| RemoveChangeListener.

Record Browser := {
  classList : list string;            (* document.documentElement.classList *)
  localStorage : gmap string string;
  prefersDark : bool;                 (* matchMedia('(prefers-color-scheme: dark)').matches *)
  calls : list DomCall
}.

(** [None] is an execution context without [window] (server-side render). *)
Definition World : Type := option Browser.

Definition Js (A : Type) : Type := World → Completion (A * World).

#[global] Instance Js_ret : MRet Js := λ A a w, Normal (a, w).

#[global] Instance Js_bind : MBind Js := λ A B f m w,
  match m w with
  | Normal (a, w') => f a w'
  | Throw e => Throw e
  end.

Definition throw {A} (e : JsError) : Js A := λ _, Throw e.

(** Access to a browser global: a [ReferenceError] where it is not declared. *)
Definition withGlobal {A} (name : string) (f : Browser → A * Browser) : Js A := λ w,
  match w with
  | Some b => let '(a, b') := f b in Normal (a, Some b')
  | None => Throw (ReferenceError name)
  end.

Definition logCall (c : DomCall) (b : Browser) : Browser :=
  {| classList := classList b; localStorage := localStorage b;
     prefersDark := prefersDark b; calls := calls b ++ [c] |}.

Definition setClassList (l : list string) (b : Browser) : Browser :=
  {| classList := l; localStorage := localStorage b;
     prefersDark := prefersDark b; calls := calls b |}.

Definition setLocalStorage (m : gmap string string) (b : Browser) : Browser :=
  {| classList := classList b; localStorage := m;
     prefersDark := prefersDark b; calls := calls b |}.

Definition setPrefersDark (d : bool) (b : Browser) : Browser :=
  {| classList := classList b; localStorage := localStorage b;
     prefersDark := d; calls := calls b |}.

(** [typeof window !== 'undefined'] never throws. *)
Definition typeofWindowDefined : Js bool := λ w,
  Normal (match w with Some _ => true | None => false end, w).

(** The class list is an ordered set of tokens: [add] appends a token that
    is not there yet, [remove] deletes every token it is given. Class names
    range over DOM tokens (non-empty, without white space): these two calls
    are the ones on accepted tokens, and never throw in a browser. The
    calls with the validation of the DOM are [DOMTokenList_add] and
    [DOMTokenList_remove] below. *)
Definition tokensAdd (c : string) (l : list string) : list string :=
  if decide (c ∈ l) then l else l ++ [c].

Definition tokensRemove (cs : list string) (l : list string) : list string :=
  filter (λ x, x ∉ cs) l.

Definition classList_add (c : string) : Js unit :=
  withGlobal "document"
    (λ b, (tt, logCall (ClassListAdd c) (setClassList (tokensAdd c (classList b)) b))).

Definition classList_remove (cs : list string) : Js unit :=
  withGlobal "document"
    (λ b, (tt, logCall (ClassListRemove cs) (setClassList (tokensRemove cs (classList b)) b))).

Definition localStorage_getItem (key : string) : Js (option string) :=
  withGlobal "localStorage" (λ b, (localStorage b !! key, b)).

Definition localStorage_setItem (key value : string) : Js unit :=
  withGlobal "localStorage"
    (λ b, (tt, logCall (SetItem key value) (setLocalStorage (<[key := value]> (localStorage b)) b))).

Definition getComputedStyle_opacity : Js unit :=
  withGlobal "window" (λ b, (tt, logCall GetComputedStyle b)).

Definition matchMedia_matches : Js bool :=
  withGlobal "window" (λ b, (prefersDark b, b)).

Definition mediaQuery_addEventListener : Js unit :=
  withGlobal "window" (λ b, (tt, logCall AddChangeListener b)).

Definition mediaQuery_removeEventListener : Js unit :=
  withGlobal "window" (λ b, (tt, logCall RemoveChangeListener b)).

(** ** Configuration *)

(** [ThemeConfig]: every field optional. *)
Module ThemeConfig.
Record t := {
  lightClass : option string;
  darkClass : option string;
  systemClass : option string;
  storageKey : option string;
  disableTransition : option bool;
  followSystemTheme : option bool
}.
Definition empty : t :=
  {| lightClass := None; darkClass := None; systemClass := None;
     storageKey := None; disableTransition := None; followSystemTheme := None |}.
End ThemeConfig.

Record FinalConfig := {
  lightClass : string;
  darkClass : string;
  systemClass : string;
  storageKey : string;
  disableTransition : bool;
  followSystemTheme : bool
}.

Record ThemeProviderProps := {
  defaultTheme : option string;
  config : option ThemeConfig.t
}.

(** The object literal with the six defaults, spread over by [config]. *)
Definition finalConfig (p : ThemeProviderProps) : FinalConfig :=
  let c := default ThemeConfig.empty (config p) in
  {| lightClass := default "light" (ThemeConfig.lightClass c);
     darkClass := default "dark" (ThemeConfig.darkClass c);
     systemClass := default "system" (ThemeConfig.systemClass c);
     storageKey := default "theme" (ThemeConfig.storageKey c);
     disableTransition := default false (ThemeConfig.disableTransition c);
     followSystemTheme := default true (ThemeConfig.followSystemTheme c) |}.

(** ** The component body *)

(** [stored || defaultTheme]: [null] and the empty string are falsy. *)
Definition orDefault (stored : option string) (dflt : string) : string :=
  match stored with
  | Some s => if decide (s = EmptyString) then dflt else s
  | None => dflt
  end.

(** The initializer of the [theme] state. *)
Definition initialTheme (cfg : FinalConfig) (dflt : string) : Js string :=
  w ← typeofWindowDefined;
  if w : bool then
    stored ← localStorage_getItem (storageKey cfg);
    mret (orDefault stored dflt)
  else mret dflt.

Definition effectiveTheme (theme systemTheme : string) : string :=
  if decide (theme = "system") then systemTheme else theme.

(** The updater passed to [setThemeState] by [toggleTheme]. *)
Definition toggleTheme (t : string) : string :=
  if decide (t = "light") then "dark"
  else if decide (t = "dark") then "system"
  else "light".

(** The first effect. It yields the argument of its [setSystemTheme] call,
    if it makes one, and whether it returned a cleanup function. *)
Definition osEffect (cfg : FinalConfig) : Js (option string * bool) :=
  w ← typeofWindowDefined;
  if negb w then mret (None, false)
  else if followSystemTheme cfg then
    m ← matchMedia_matches;
    mediaQuery_addEventListener;;
    mret (Some (if m : bool then "dark" else "light"), true)
  else mret (None, false).

(** The second effect. *)
Definition syncEffect (cfg : FinalConfig) (theme effective : string) : Js unit :=
  w ← typeofWindowDefined;
  if negb w then mret tt
  else
    (if disableTransition cfg then classList_add "no-transitions" else mret tt);;
    classList_remove [lightClass cfg; darkClass cfg; systemClass cfg];;
    (if decide (effective = "dark") then classList_add (darkClass cfg)
     else if decide (effective = "light") then classList_add (lightClass cfg)
     else classList_add (systemClass cfg));;
    localStorage_setItem (storageKey cfg) theme;;
    (if disableTransition cfg then
       getComputedStyle_opacity;;
       classList_remove ["no-transitions"]
     else mret tt).

(** ** The context value and the hooks that hold it *)

(** [ThemeContextType]. Its two function members, [toggleTheme] and
    [setTheme], close over [setThemeState]; calling them is an [Event] of the
    mounted provider below. *)
Module ThemeContextType.
Record t := {
  theme : string;
  systemTheme : string;
  effectiveTheme : string;
  config : FinalConfig
}.
End ThemeContextType.

(** An object created during a render is identified by the number of that
    render: two [finalConfig] objects are the same object exactly when they
    come from the same render. *)
Definition ObjectId : Type := nat.

Definition MemoDeps : Type := string * string * string * ObjectId.
Definition SyncDeps : Type := string * string * ObjectId.

(** [useMemo]: the cached value is kept when the dependency list compares
    equal to the one it was computed with. *)
Definition useMemo {A} (deps : MemoDeps) (compute : A) (cell : option (MemoDeps * A))
  : MemoDeps * A :=
  match cell with
  | Some (deps0, a) => if decide (deps0 = deps) then (deps0, a) else (deps, compute)
  | None => (deps, compute)
  end.

(** The hook cells of one mounted [ThemeProvider]. *)
Record Fiber := {
  props : ThemeProviderProps;
  systemTheme : string;
  theme : string;
  osEffectDeps : option bool;        (* [finalConfig.followSystemTheme] of the last run *)
  osEffectCleanup : bool;            (* the last run returned the unsubscribe closure *)
  syncEffectDeps : option SyncDeps;
  memo : option (MemoDeps * ThemeContextType.t);
  renders : nat
}.

Definition withTheme (t : string) (f : Fiber) : Fiber :=
  {| props := props f; systemTheme := systemTheme f; theme := t;
     osEffectDeps := osEffectDeps f; osEffectCleanup := osEffectCleanup f;
     syncEffectDeps := syncEffectDeps f; memo := memo f; renders := renders f |}.

Definition withSystemTheme (t : string) (f : Fiber) : Fiber :=
  {| props := props f; systemTheme := t; theme := theme f;
     osEffectDeps := osEffectDeps f; osEffectCleanup := osEffectCleanup f;
     syncEffectDeps := syncEffectDeps f; memo := memo f; renders := renders f |}.

(** One render of the component followed by the commit of its effects:
    cleanup of a first effect whose dependency changed, then the effects in
    source order. The effects see the values of this render; a
    [setSystemTheme] made by the first effect lands in the returned cells. *)
Definition render (p : ThemeProviderProps) (f : Fiber) : Js Fiber :=
  let id : ObjectId := S (renders f) in
  let cfg := finalConfig p in
  let effective := effectiveTheme (theme f) (systemTheme f) in
  let value :=
    useMemo (theme f, systemTheme f, effective, id)
      {| ThemeContextType.theme := theme f;
         ThemeContextType.systemTheme := systemTheme f;
         ThemeContextType.effectiveTheme := effective;
         ThemeContextType.config := cfg |}
      (memo f) in
  '(set, cleanup) ←
    (if decide (osEffectDeps f = Some (followSystemTheme cfg))
     then mret (None, osEffectCleanup f)
     else
       (if osEffectCleanup f then mediaQuery_removeEventListener else mret tt);;
       osEffect cfg);
  (if decide (syncEffectDeps f = Some (theme f, effective, id)) then mret tt
   else syncEffect cfg (theme f) effective);;
  mret {| props := p;
          systemTheme := default (systemTheme f) set;
          theme := theme f;
          osEffectDeps := Some (followSystemTheme cfg);
          osEffectCleanup := cleanup;
          syncEffectDeps := Some (theme f, effective, id);
          memo := Some value;
          renders := id |}.

(** A state update made inside an effect schedules one more render. *)
Definition renderAndCommit (p : ThemeProviderProps) (f : Fiber) : Js Fiber :=
  f1 ← render p f;
  if decide (systemTheme f1 = systemTheme f) then mret f1 else render p f1.

(** State setters bail out when the new state is the current one. *)
Definition setThemeState (t : string) (f : Fiber) : Js Fiber :=
  if decide (t = theme f) then mret f
  else renderAndCommit (props f) (withTheme t f).

Definition setSystemTheme (t : string) (f : Fiber) : Js Fiber :=
  if decide (t = systemTheme f) then mret f
  else renderAndCommit (props f) (withSystemTheme t f).

Definition mount (p : ThemeProviderProps) : Js Fiber :=
  t ← initialTheme (finalConfig p) (default "light" (defaultTheme p));
  renderAndCommit p
    {| props := p; systemTheme := "light"; theme := t;
       osEffectDeps := None; osEffectCleanup := false;
       syncEffectDeps := None; memo := None; renders := 0 |}.

(** What can happen to a mounted provider. *)
Inductive Event :=
| SetTheme (t : string)              (* a consumer calls [setTheme(t)] *)
| ToggleTheme                        (* a consumer calls [toggleTheme()] *)
| MediaChange (matches : bool)       (* the OS preference changes *)
| Rerender (p : ThemeProviderProps). (* the parent renders the provider again *)

(** [handleChange] is called only while it is registered. *)
Definition mediaChange (matches : bool) (f : Fiber) : Js Fiber := λ w,
  match w with
  | Some b =>
      (if osEffectCleanup f
       then setSystemTheme (if matches then "dark" else "light") f
       else mret f) (Some (setPrefersDark matches b))
  | None => Normal (f, None)
  end.

Definition dispatch (e : Event) (f : Fiber) : Js Fiber :=
  match e with
  | SetTheme t => setThemeState t f
  | ToggleTheme => setThemeState (toggleTheme (theme f)) f
  | MediaChange m => mediaChange m f
  | Rerender p => renderAndCommit p f
  end.

Fixpoint run (es : list Event) (f : Fiber) : Js Fiber :=
  match es with
  | [] => mret f
  | e :: es' => f' ← dispatch e f; run es' f'
  end.

(** The life of a provider: mounted with [p], then the events [es]. *)
Definition session (p : ThemeProviderProps) (es : list Event) : Js Fiber :=
  f ← mount p; run es f.

(** The value published to the children in the last render. *)
Definition published (f : Fiber) : option ThemeContextType.t := snd <$> memo f.

(** ** useTheme *)

(** [useContext(ThemeContext)]: the value of the nearest enclosing provider,
    innermost first, or the default of [createContext], [undefined]. *)
Definition useContext (scope : list ThemeContextType.t) : option ThemeContextType.t :=
  head scope.

Definition useTheme (scope : list ThemeContextType.t) : Js ThemeContextType.t :=
  match useContext scope with
  | None => throw (Error "useTheme must be used within ThemeProvider")
  | Some ctx => mret ctx
  end.

(** [export const useThemeContext = useTheme]. *)
Definition useThemeContext := useTheme.

(** The scope seen by the children of a provider rendered in scope [outer]. *)
Definition childScope (f : Fiber) (outer : list ThemeContextType.t)
  : list ThemeContextType.t :=
  match published f with
  | Some v => v :: outer
  | None => outer
  end.

(** ** Vocabulary of the statements *)

(** [type Theme = 'light' | 'dark' | 'system'] and its string literals. *)
Inductive Theme := Light | Dark | System.

Definition literal (m : Theme) : string :=
  match m with
  | Light => "light"
  | Dark => "dark"
  | System => "system"
  end.

Definition isTheme (s : string) : Prop := ∃ m, s = literal m.

(** The class that the chain of tests in the second effect adds. *)
Definition appliedClass (cfg : FinalConfig) (effective : string) : string :=
  if decide (effective = "dark") then darkClass cfg
  else if decide (effective = "light") then lightClass cfg
  else systemClass cfg.

(** What one run of the second effect makes of the class list. *)
Definition syncTokens (cfg : FinalConfig) (effective : string) (l : list string)
  : list string :=
  (if disableTransition cfg then tokensRemove ["no-transitions"] else id)
    (tokensAdd (appliedClass cfg effective)
       (tokensRemove [lightClass cfg; darkClass cfg; systemClass cfg]
          ((if disableTransition cfg then tokensAdd "no-transitions" else id) l))).

(** The calls of one run of the second effect, without the two steps that
    handle the marker. *)
Definition coreCalls (cfg : FinalConfig) (theme effective : string) : list DomCall :=
  [ClassListRemove [lightClass cfg; darkClass cfg; systemClass cfg];
   ClassListAdd (appliedClass cfg effective);
   SetItem (storageKey cfg) theme].

(** The three configured class names differ from each other, and where the
    marker is in use neither the light nor the dark class bears its name. *)
Definition distinctClasses (cfg : FinalConfig) : Prop :=
  NoDup [lightClass cfg; darkClass cfg; systemClass cfg]
  ∧ (disableTransition cfg = true →
     lightClass cfg ≠ "no-transitions" ∧ darkClass cfg ≠ "no-transitions").

(** Exactly one of the light and dark classes on the root, and no system
    class. *)
Definition oneThemeClass (cfg : FinalConfig) (classes : list string) : Prop :=
  (lightClass cfg ∈ classes ↔ darkClass cfg ∉ classes)
  ∧ systemClass cfg ∉ classes.

Definition cfgOf (f : Fiber) : FinalConfig := finalConfig (props f).

(** The provider keeps [followSystemTheme] off in every render. *)
Definition followOff (p : ThemeProviderProps) : Prop :=
  followSystemTheme (finalConfig p) = false.

Definition eventFollowOff (e : Event) : Prop :=
  match e with
  | Rerender p => followOff p
  | _ => True
  end.

(** The value a render computes for the context. *)
Definition contextValue (cfg : FinalConfig) (theme systemTheme : string)
  : ThemeContextType.t :=
  {| ThemeContextType.theme := theme;
     ThemeContextType.systemTheme := systemTheme;
     ThemeContextType.effectiveTheme := effectiveTheme theme systemTheme;
     ThemeContextType.config := cfg |}.

(** Objects held in the hook cells were created in a render that has
    happened. *)
Definition idsBounded (f : Fiber) : Prop :=
  (∀ t e n, syncEffectDeps f = Some (t, e, n) → (n ≤ renders f)%nat)
  ∧ (∀ t s e n v, memo f = Some ((t, s, e, n), v) → (n ≤ renders f)%nat).

(** The browser reflects the cells: the class list is what the second effect
    leaves for the current values, and storage holds the current theme. *)
Definition Synced (f : Fiber) (w : World) : Prop :=
  match w with
  | Some b =>
      (∃ l0, classList b =
               syncTokens (cfgOf f) (effectiveTheme (theme f) (systemTheme f)) l0)
      ∧ localStorage b !! storageKey (cfgOf f) = Some (theme f)
  | None => True
  end.

(** The invariant of a mounted provider between events. *)
Definition Inv (f : Fiber) (w : World) : Prop :=
  idsBounded f
  ∧ published f = Some (contextValue (cfgOf f) (theme f) (systemTheme f))
  ∧ osEffectDeps f = Some (followSystemTheme (cfgOf f))
  ∧ (systemTheme f = "light" ∨ systemTheme f = "dark")
  ∧ (w = None → osEffectCleanup f = false)
  ∧ Synced f w.

(** The additional invariant of a provider that never follows the OS. *)
Definition Unsubscribed (f : Fiber) : Prop :=
  systemTheme f = "light" ∧ osEffectCleanup f = false ∧ followOff (props f).

(** What one render establishes about the cells it returns. *)
Definition rendered (p : ThemeProviderProps) (f f' : Fiber) : Prop :=
  props f' = p ∧ theme f' = theme f ∧ renders f' = S (renders f)
  ∧ idsBounded f'
  ∧ published f' = Some (contextValue (finalConfig p) (theme f) (systemTheme f))
  ∧ osEffectDeps f' = Some (followSystemTheme (finalConfig p))
  ∧ (systemTheme f' = systemTheme f ∨ systemTheme f' = "light" ∨ systemTheme f' = "dark")
  ∧ (osEffectDeps f = Some (followSystemTheme (finalConfig p)) →
     systemTheme f' = systemTheme f ∧ osEffectCleanup f' = osEffectCleanup f)
  ∧ (followSystemTheme (finalConfig p) = false →
     systemTheme f' = systemTheme f
     ∧ (osEffectCleanup f = false → osEffectCleanup f' = false)).

(** What one run of the second effect establishes about the world. *)
Definition synced (cfg : FinalConfig) (t e : string) (w w' : World) : Prop :=
  match w with
  | Some b => ∃ b', w' = Some b'
      ∧ classList b' = syncTokens cfg e (classList b)
      ∧ localStorage b' = <[storageKey cfg := t]> (localStorage b)
  | None => w' = None
  end.

(** What an event does to the cells. *)
Definition stepped (e : Event) (f f' : Fiber) : Prop :=
  theme f' = match e with
             | SetTheme t => t
             | ToggleTheme => toggleTheme (theme f)
             | _ => theme f
             end
  ∧ props f' = match e with Rerender p => p | _ => props f end
  ∧ match e with
    | SetTheme _ | ToggleTheme => systemTheme f' = systemTheme f
    | _ => True
    end
  ∧ (Unsubscribed f → eventFollowOff e → f' = f ∨ Unsubscribed f').

(** Observations of a finished computation. *)
Definition themeAfter (c : Completion (Fiber * World)) : option string :=
  match c with
  | Normal (f, _) => Some (theme f)
  | Throw _ => None
  end.

Definition classesAfter {A} (c : Completion (A * World)) : option (list string) :=
  match c with
  | Normal (_, Some b) => Some (classList b)
  | _ => None
  end.

Definition callsAfter {A} (c : Completion (A * World)) : option (list DomCall) :=
  match c with
  | Normal (_, Some b) => Some (calls b)
  | _ => None
  end.

(** Concrete inputs used in the examples. *)
Definition defaultProps : ThemeProviderProps :=
  {| defaultTheme := None; config := None |}.

Definition withConfig (c : ThemeConfig.t) : ThemeProviderProps :=
  {| defaultTheme := None; config := Some c |}.

Definition freshBrowser : Browser :=
  {| classList := []; localStorage := ∅; prefersDark := false; calls := [] |}.

Definition darkOsBrowser : Browser :=
  {| classList := []; localStorage := ∅; prefersDark := true; calls := [] |}.

(** A browser whose storage holds a string that is no [Theme]. *)
Definition storedBanana : Browser :=
  {| classList := []; localStorage := {["theme" := "banana"]};
     prefersDark := false; calls := [] |}.

(** A browser whose storage holds ["dark"] under a custom key. *)
Definition storedDark : Browser :=
  {| classList := []; localStorage := {["app-theme" := "dark"]};
     prefersDark := false; calls := [] |}.

Definition sameClassConfig : ThemeConfig.t :=
  {| ThemeConfig.lightClass := Some "theme"; ThemeConfig.darkClass := Some "theme";
     ThemeConfig.systemClass := None; ThemeConfig.storageKey := None;
     ThemeConfig.disableTransition := None; ThemeConfig.followSystemTheme := None |}.

Definition markerClassConfig (suppress : bool) : ThemeConfig.t :=
  {| ThemeConfig.lightClass := Some "no-transitions"; ThemeConfig.darkClass := None;
     ThemeConfig.systemClass := None; ThemeConfig.storageKey := None;
     ThemeConfig.disableTransition := Some suppress;
     ThemeConfig.followSystemTheme := None |}.

Definition suppressConfig : ThemeConfig.t :=
  {| ThemeConfig.lightClass := None; ThemeConfig.darkClass := None;
     ThemeConfig.systemClass := None; ThemeConfig.storageKey := None;
     ThemeConfig.disableTransition := Some true;
     ThemeConfig.followSystemTheme := None |}.

Definition noFollowConfig : ThemeConfig.t :=
  {| ThemeConfig.lightClass := None; ThemeConfig.darkClass := None;
     ThemeConfig.systemClass := None; ThemeConfig.storageKey := None;
     ThemeConfig.disableTransition := None;
     ThemeConfig.followSystemTheme := Some false |}.

Definition customKeyConfig : ThemeConfig.t :=
  {| ThemeConfig.lightClass := None; ThemeConfig.darkClass := None;
     ThemeConfig.systemClass := None; ThemeConfig.storageKey := Some "app-theme";
     ThemeConfig.disableTransition := None;
     ThemeConfig.followSystemTheme := None |}.

Fixpoint iter {A} (n : nat) (g : A → A) (a : A) : A :=
  match n with
  | 0 => a
  | S n' => g (iter n' g a)
  end.

(** ** Vocabulary of the further properties *)

Definition ofPrefers (dark : bool) : string := if dark then "dark" else "light".

(** All calls of one run of the second effect in a browser. *)
Definition syncCalls (cfg : FinalConfig) (theme effective : string) : list DomCall :=
  (if disableTransition cfg then [ClassListAdd "no-transitions"] else [])
  ++ coreCalls cfg theme effective
  ++ (if disableTransition cfg
      then [GetComputedStyle; ClassListRemove ["no-transitions"]] else []).

(** The hook cells at the first render. *)
Definition initialCells (p : ThemeProviderProps) (t : string) : Fiber :=
  {| props := p; systemTheme := "light"; theme := t;
     osEffectDeps := None; osEffectCleanup := false;
     syncEffectDeps := None; memo := None; renders := 0 |}.

(** Unmounting runs the cleanup functions the effects returned; only the
    first effect returns one. *)
Definition unmount (f : Fiber) : Js unit :=
  if osEffectCleanup f then mediaQuery_removeEventListener else mret tt.

Fixpoint listenerAdds (l : list DomCall) : nat :=
  match l with
  | [] => 0
  | AddChangeListener :: l' => S (listenerAdds l')
  | _ :: l' => listenerAdds l'
  end.

Fixpoint listenerRemoves (l : list DomCall) : nat :=
  match l with
  | [] => 0
  | RemoveChangeListener :: l' => S (listenerRemoves l')
  | _ :: l' => listenerRemoves l'
  end.

(** The props of the last render of a session. *)
Definition lastProps (p : ThemeProviderProps) (es : list Event) : ThemeProviderProps :=
  foldl (λ q e, match e with Rerender p' => p' | _ => q end) p es.

(** The class names a configuration makes the second effect handle. *)
Definition handledClasses (cfg : FinalConfig) : list string :=
  [lightClass cfg; darkClass cfg; systemClass cfg; "no-transitions"].

(** The first effect runs again: its dependency differs from the last run. *)
Definition resubscribes (p : ThemeProviderProps) (f : Fiber) : bool :=
  bool_decide (osEffectDeps f ≠ Some (followSystemTheme (finalConfig p))).

(** What a render with props [p], and the second render it may schedule,
    make of the cells [f] and the browser [b]. *)
Definition Effected (p : ThemeProviderProps) (f : Fiber) (b : Browser)
    (f' : Fiber) (b' : Browser) : Prop :=
  let cfg := finalConfig p in
  let e0 := effectiveTheme (theme f) (systemTheme f) in
  let e1 := effectiveTheme (theme f) (systemTheme f') in
  props f' = p ∧ theme f' = theme f
  ∧ systemTheme f' = (if resubscribes p f && followSystemTheme cfg
                      then ofPrefers (prefersDark b) else systemTheme f)
  ∧ osEffectCleanup f' = (if resubscribes p f then followSystemTheme cfg
                          else osEffectCleanup f)
  ∧ prefersDark b' = prefersDark b
  ∧ localStorage b' = <[storageKey cfg := theme f]> (localStorage b)
  ∧ classList b' = (if decide (systemTheme f' = systemTheme f)
                    then syncTokens cfg e1 (classList b)
                    else syncTokens cfg e1 (syncTokens cfg e0 (classList b)))
  ∧ calls b' = calls b
      ++ (if resubscribes p f && osEffectCleanup f then [RemoveChangeListener] else [])
      ++ (if resubscribes p f && followSystemTheme cfg then [AddChangeListener] else [])
      ++ syncCalls cfg (theme f) e0
      ++ (if decide (systemTheme f' = systemTheme f) then []
          else syncCalls cfg (theme f) e1).

(** What an event makes of the cells and the browser: nothing but the
    recorded OS preference when a setter bails out or no listener is
    registered, a render of the updated cells otherwise. *)
Definition Moved (e : Event) (f : Fiber) (b : Browser) (f' : Fiber) (b' : Browser)
  : Prop :=
  match e with
  | SetTheme t =>
      (t = theme f ∧ f' = f ∧ b' = b)
      ∨ (t ≠ theme f ∧ Effected (props f) (withTheme t f) b f' b')
  | ToggleTheme =>
      Effected (props f) (withTheme (toggleTheme (theme f)) f) b f' b'
  | MediaChange m =>
      ((osEffectCleanup f = false ∨ ofPrefers m = systemTheme f)
       ∧ f' = f ∧ b' = setPrefersDark m b)
      ∨ (osEffectCleanup f = true ∧ ofPrefers m ≠ systemTheme f
         ∧ Effected (props f) (withSystemTheme (ofPrefers m) f) (setPrefersDark m b) f' b')
  | Rerender p => Effected p f b f' b'
  end.

(** The provider keeps [followSystemTheme] on in every render. *)
Definition followOn (p : ThemeProviderProps) : Prop :=
  followSystemTheme (finalConfig p) = true.

Definition eventFollowOn (e : Event) : Prop :=
  match e with
  | Rerender p => followOn p
  | _ => True
  end.

(** The OS preference after the events: that of the last change. *)
Definition lastPreference (dark : bool) (es : list Event) : bool :=
  foldl (λ d e, match e with MediaChange m => m | _ => d end) dark es.

(** The class [c] and the storage key [k] are none of those a provider
    with props [p] handles. *)
Definition foreignTo (c k : string) (p : ThemeProviderProps) : Prop :=
  (c ∉ handledClasses (finalConfig p)) ∧ k ≠ storageKey (finalConfig p).

Definition eventForeignTo (c k : string) (e : Event) : Prop :=
  match e with
  | Rerender p => foreignTo c k p
  | _ => True
  end.

(** Registrations and removals of the listener balance up to [n]. *)
Definition listenersHeld (before after : list DomCall) (n : nat) : Prop :=
  listenerAdds after + listenerRemoves before
  = listenerRemoves after + listenerAdds before + n.

(** ** The class list as the DOM has it *)

(** [DOMTokenList.add] and [DOMTokenList.remove] first validate every token
    they are given: the empty string raises a [SyntaxError], a token with
    ASCII white space an [InvalidCharacterError], and in either case the
    class list is left as it was. The configured class names reach these
    calls unvalidated. *)
Definition isAsciiWhitespace (a : Ascii.ascii) : bool :=
  bool_decide (Ascii.nat_of_ascii a ∈ [9; 10; 12; 13; 32]).

Fixpoint hasWhitespace (s : string) : bool :=
  match s with
  | EmptyString => false
  | String a s' => isAsciiWhitespace a || hasWhitespace s'
  end.

Definition validToken (s : string) : bool :=
  match s with
  | EmptyString => false
  | _ => negb (hasWhitespace s)
  end.

Definition tokenError (s : string) : JsError :=
  match s with
  | EmptyString => DOMException "SyntaxError"
  | _ => DOMException "InvalidCharacterError"
  end.

Fixpoint firstInvalid (cs : list string) : option string :=
  match cs with
  | [] => None
  | c :: cs' => if validToken c then firstInvalid cs' else Some c
  end.

(** Code that runs in a browser and may throw: what it did to the browser
    before the throw stays done. *)
Definition Dom (A : Type) : Type := Browser → Completion A * Browser.

#[global] Instance Dom_ret : MRet Dom := λ A a b, (Normal a, b).

#[global] Instance Dom_bind : MBind Dom := λ A B f m b,
  match m b with
  | (Normal a, b') => f a b'
  | (Throw e, b') => (Throw e, b')
  end.

Definition DOMTokenList_add (c : string) : Dom unit := λ b,
  if validToken c
  then (Normal tt, logCall (ClassListAdd c) (setClassList (tokensAdd c (classList b)) b))
  else (Throw (tokenError c), b).

Definition DOMTokenList_remove (cs : list string) : Dom unit := λ b,
  match firstInvalid cs with
  | Some c => (Throw (tokenError c), b)
  | None =>
      (Normal tt,
       logCall (ClassListRemove cs) (setClassList (tokensRemove cs (classList b)) b))
  end.

Definition Storage_setItem (key value : string) : Dom unit := λ b,
  (Normal tt,
   logCall (SetItem key value) (setLocalStorage (<[key := value]> (localStorage b)) b)).

Definition Window_getComputedStyle : Dom unit := λ b,
  (Normal tt, logCall GetComputedStyle b).

(** The body of the second effect behind its guard, over the class list as
    the DOM has it. *)
Definition syncEffectDom (cfg : FinalConfig) (theme effective : string) : Dom unit :=
  (if disableTransition cfg then DOMTokenList_add "no-transitions" else mret tt);;
  DOMTokenList_remove [lightClass cfg; darkClass cfg; systemClass cfg];;
  (if decide (effective = "dark") then DOMTokenList_add (darkClass cfg)
   else if decide (effective = "light") then DOMTokenList_add (lightClass cfg)
   else DOMTokenList_add (systemClass cfg));;
  Storage_setItem (storageKey cfg) theme;;
  (if disableTransition cfg then
     Window_getComputedStyle;;
     DOMTokenList_remove ["no-transitions"]
   else mret tt).

(** An exception that leaves an effect ends the commit: the state of the
    browser at the throw is of no further use to the provider. *)
Definition liftDom {A} (m : Dom A) : Js A := λ w,
  match w with
  | Some b =>
      match m b with
      | (Normal a, b') => Normal (a, Some b')
      | (Throw e, _) => Throw e
      end
  | None => Throw (ReferenceError "document")
  end.

(** The second effect, guard included, over the class list as the DOM has
    it. *)
Definition syncEffectChecked (cfg : FinalConfig) (theme effective : string) : Js unit :=
  w ← typeofWindowDefined;
  if negb w then mret tt
  else liftDom (syncEffectDom cfg theme effective).

(** The three configured class names are tokens the class list accepts. *)
Definition validClasses (cfg : FinalConfig) : bool :=
  validToken (lightClass cfg) && validToken (darkClass cfg)
  && validToken (systemClass cfg).

Definition eventValidClasses (e : Event) : Prop :=
  match e with
  | Rerender p => validClasses (finalConfig p) = true
  | _ => True
  end.

(** ** The provider over a given second effect *)

(** The component, its setters and its events as above, with the second
    effect as a parameter: [sessionWith syncEffect] is [session], and
    [sessionChecked] is the provider over the class list as the DOM has
    it. *)
Definition renderWith (sync : FinalConfig → string → string → Js unit)
    (p : ThemeProviderProps) (f : Fiber) : Js Fiber :=
  let id : ObjectId := S (renders f) in
  let cfg := finalConfig p in
  let effective := effectiveTheme (theme f) (systemTheme f) in
  let value :=
    useMemo (theme f, systemTheme f, effective, id)
      {| ThemeContextType.theme := theme f;
         ThemeContextType.systemTheme := systemTheme f;
         ThemeContextType.effectiveTheme := effective;
         ThemeContextType.config := cfg |}
      (memo f) in
  '(set, cleanup) ←
    (if decide (osEffectDeps f = Some (followSystemTheme cfg))
     then mret (None, osEffectCleanup f)
     else
       (if osEffectCleanup f then mediaQuery_removeEventListener else mret tt);;
       osEffect cfg);
  (if decide (syncEffectDeps f = Some (theme f, effective, id)) then mret tt
   else sync cfg (theme f) effective);;
  mret {| props := p;
          systemTheme := default (systemTheme f) set;
          theme := theme f;
          osEffectDeps := Some (followSystemTheme cfg);
          osEffectCleanup := cleanup;
          syncEffectDeps := Some (theme f, effective, id);
          memo := Some value;
          renders := id |}.

Definition renderAndCommitWith (sync : FinalConfig → string → string → Js unit)
    (p : ThemeProviderProps) (f : Fiber) : Js Fiber :=
  f1 ← renderWith sync p f;
  if decide (systemTheme f1 = systemTheme f) then mret f1 else renderWith sync p f1.

Definition setThemeStateWith (sync : FinalConfig → string → string → Js unit)
    (t : string) (f : Fiber) : Js Fiber :=
  if decide (t = theme f) then mret f
  else renderAndCommitWith sync (props f) (withTheme t f).

Definition setSystemThemeWith (sync : FinalConfig → string → string → Js unit)
    (t : string) (f : Fiber) : Js Fiber :=
  if decide (t = systemTheme f) then mret f
  else renderAndCommitWith sync (props f) (withSystemTheme t f).

Definition mountWith (sync : FinalConfig → string → string → Js unit)
    (p : ThemeProviderProps) : Js Fiber :=
  t ← initialTheme (finalConfig p) (default "light" (defaultTheme p));
  renderAndCommitWith sync p
    {| props := p; systemTheme := "light"; theme := t;
       osEffectDeps := None; osEffectCleanup := false;
       syncEffectDeps := None; memo := None; renders := 0 |}.

Definition mediaChangeWith (sync : FinalConfig → string → string → Js unit)
    (matches : bool) (f : Fiber) : Js Fiber := λ w,
  match w with
  | Some b =>
      (if osEffectCleanup f
       then setSystemThemeWith sync (if matches then "dark" else "light") f
       else mret f) (Some (setPrefersDark matches b))
  | None => Normal (f, None)
  end.

Definition dispatchWith (sync : FinalConfig → string → string → Js unit)
    (e : Event) (f : Fiber) : Js Fiber :=
  match e with
  | SetTheme t => setThemeStateWith sync t f
  | ToggleTheme => setThemeStateWith sync (toggleTheme (theme f)) f
  | MediaChange m => mediaChangeWith sync m f
  | Rerender p => renderAndCommitWith sync p f
  end.

Fixpoint runWith (sync : FinalConfig → string → string → Js unit)
    (es : list Event) (f : Fiber) : Js Fiber :=
  match es with
  | [] => mret f
  | e :: es' => f' ← dispatchWith sync e f; runWith sync es' f'
  end.

Definition sessionWith (sync : FinalConfig → string → string → Js unit)
    (p : ThemeProviderProps) (es : list Event) : Js Fiber :=
  f ← mountWith sync p; runWith sync es f.

Definition mountChecked : ThemeProviderProps → Js Fiber :=
  mountWith syncEffectChecked.

Definition sessionChecked : ThemeProviderProps → list Event → Js Fiber :=
  sessionWith syncEffectChecked.

(** Two second effects agree under the configuration of [p]. *)
Definition agreeOn (s1 s2 : FinalConfig → string → string → Js unit)
    (p : ThemeProviderProps) : Prop :=
  ∀ t e w, s1 (finalConfig p) t e w = s2 (finalConfig p) t e w.

(** Observations of a run of the effect body. *)
Definition classesLeft {A} (r : Completion A * Browser) : list string :=
  classList (snd r).

Definition thrown {A} (r : Completion A * Browser) : option JsError :=
  match fst r with
  | Throw e => Some e
  | Normal _ => None
  end.

(** A dark class that is the empty string, with the marker in use. *)
Definition emptyDarkConfig : ThemeConfig.t :=
  {| ThemeConfig.lightClass := None; ThemeConfig.darkClass := Some EmptyString;
     ThemeConfig.systemClass := None; ThemeConfig.storageKey := None;
     ThemeConfig.disableTransition := Some true;
     ThemeConfig.followSystemTheme := None |}.

(** * Properties *)

(** ** Token sets *)

Lemma elem_of_tokensAdd (x c : string) (l : list string) :
  x ∈ tokensAdd c l ↔ x = c ∨ x ∈ l.
Proof.
  unfold tokensAdd. case_decide as Hc.
  - split; [by right | intros [-> | H]; done].
  - rewrite elem_of_app, list_elem_of_singleton. tauto.
Qed.

Lemma elem_of_tokensRemove (x : string) (cs l : list string) :
  x ∈ tokensRemove cs l ↔ x ∈ l ∧ x ∉ cs.
Proof. unfold tokensRemove. rewrite list_elem_of_filter. tauto. Qed.

(** ** The effects as browser transformers *)

Lemma appliedClass_chain (cfg : FinalConfig) (e : string) :
  (if decide (e = "dark") then classList_add (darkClass cfg)
   else if decide (e = "light") then classList_add (lightClass cfg)
   else classList_add (systemClass cfg)) = classList_add (appliedClass cfg e).
Proof. unfold appliedClass. by repeat case_decide. Qed.

Lemma syncEffect_browser (cfg : FinalConfig) (t e : string) (b : Browser) :
  ∃ b', syncEffect cfg t e (Some b) = Normal (tt, Some b')
    ∧ classList b' = syncTokens cfg e (classList b)
    ∧ localStorage b' = <[storageKey cfg := t]> (localStorage b)
    ∧ prefersDark b' = prefersDark b
    ∧ calls b' = calls b ++
        (if disableTransition cfg then [ClassListAdd "no-transitions"] else []) ++
        coreCalls cfg t e ++
        (if disableTransition cfg
         then [GetComputedStyle; ClassListRemove ["no-transitions"]] else []).
Proof.
  unfold syncEffect, syncTokens, coreCalls. rewrite appliedClass_chain.
  destruct (disableTransition cfg); eexists; (split; [reflexivity |]);
    cbn; rewrite <- ?app_assoc; done.
Qed.

Lemma syncEffect_noWindow (cfg : FinalConfig) (t e : string) :
  syncEffect cfg t e None = Normal (tt, None).
Proof. reflexivity. Qed.

Lemma osEffect_browser (cfg : FinalConfig) (b : Browser) :
  ∃ b', osEffect cfg (Some b) =
          Normal ((if followSystemTheme cfg
                   then (Some (if prefersDark b then "dark" else "light"), true)
                   else (None, false)), Some b')
    ∧ classList b' = classList b
    ∧ localStorage b' = localStorage b
    ∧ prefersDark b' = prefersDark b.
Proof.
  unfold osEffect. destruct (followSystemTheme cfg); eexists; (split; [reflexivity |]); done.
Qed.

Lemma osEffect_noWindow (cfg : FinalConfig) :
  osEffect cfg None = Normal ((None, false), None).
Proof. reflexivity. Qed.

Lemma osEffect_calls (cfg : FinalConfig) (b : Browser) :
  ∃ b', osEffect cfg (Some b) =
          Normal ((if followSystemTheme cfg
                   then (Some (ofPrefers (prefersDark b)), true)
                   else (None, false)), Some b')
    ∧ classList b' = classList b
    ∧ localStorage b' = localStorage b
    ∧ prefersDark b' = prefersDark b
    ∧ calls b' = calls b ++ (if followSystemTheme cfg then [AddChangeListener] else []).
Proof.
  unfold osEffect. destruct (followSystemTheme cfg); eexists;
    (split; [reflexivity |]); cbn; rewrite ?app_nil_r; done.
Qed.

Lemma syncEffect_calls (cfg : FinalConfig) (t e : string) (b : Browser) :
  ∃ b', syncEffect cfg t e (Some b) = Normal (tt, Some b')
    ∧ classList b' = syncTokens cfg e (classList b)
    ∧ localStorage b' = <[storageKey cfg := t]> (localStorage b)
    ∧ prefersDark b' = prefersDark b
    ∧ calls b' = calls b ++ syncCalls cfg t e.
Proof.
  destruct (syncEffect_browser cfg t e b) as (b' & ? & ? & ? & ? & ?). by exists b'.
Qed.

(** ** Renders, events and sessions *)

#[local] Arguments syncEffect : simpl never.
#[local] Arguments osEffect : simpl never.
#[local] Arguments finalConfig : simpl never.
#[local] Arguments effectiveTheme : simpl never.

Lemma useMemo_fresh {A} (t s e : string) (n : nat) (a : A) (cell : option (MemoDeps * A)) :
  (∀ t0 s0 e0 n0 v, cell = Some ((t0, s0, e0, n0), v) → (n0 < n)%nat) →
  useMemo (t, s, e, n) a cell = ((t, s, e, n), a).
Proof.
  intros Hb. unfold useMemo. destruct cell as [[[[[t0 s0] e0] n0] v] |]; [| done].
  case_decide as Heq; [| done].
  specialize (Hb _ _ _ _ _ eq_refl). inversion Heq. lia.
Qed.

Lemma bind_Normal {A B} (m : Js A) (k : A → Js B) (w w' : World) (a : A) :
  m w = Normal (a, w') → (m ≫= k) w = k a w'.
Proof. intros H. unfold mbind, Js_bind. by rewrite H. Qed.

Ltac solve_rendered :=
  unfold rendered, published; cbn; repeat split; auto; try done;
  try (intros; cbn in *; simplify_eq; cbn; lia); try congruence.

Lemma render_spec (p : ThemeProviderProps) (f : Fiber) (w : World) :
  idsBounded f →
  (w = None → osEffectCleanup f = false) →
  ∃ f' w', render p f w = Normal (f', w') ∧ rendered p f f'
    ∧ synced (finalConfig p) (theme f) (effectiveTheme (theme f) (systemTheme f)) w w'
    ∧ (w = None → osEffectCleanup f' = false).
Proof.
  intros [Hs Hm] Hnone. unfold render.
  rewrite useMemo_fresh by (intros; eapply Nat.lt_succ_r, Hm; eauto).
  case_decide as Hsync.
  { apply Hs in Hsync. lia. }
  destruct w as [b |].
  - (* in a browser *)
    set (b1 := if osEffectCleanup f then logCall RemoveChangeListener b else b).
    destruct (osEffect_browser (finalConfig p) b1) as (b2 & Hos & Hc2 & Hl2 & _).
    destruct (syncEffect_browser (finalConfig p) (theme f)
                (effectiveTheme (theme f) (systemTheme f))
                (if decide (osEffectDeps f = Some (followSystemTheme (finalConfig p)))
                 then b else b2)) as (b3 & Hsy & Hc3 & Hl3 & _).
    case_decide as Hdeps.
    + erewrite bind_Normal by reflexivity. cbn beta iota.
      erewrite bind_Normal by exact Hsy.
      eexists _, _. split; [reflexivity |]. split; [solve_rendered |].
      split; [| done]. cbn. eauto.
    + erewrite bind_Normal; cycle 1.
      { erewrite bind_Normal with (w' := Some b1); [exact Hos |].
        subst b1. by destruct (osEffectCleanup f). }
      assert (classList b2 = classList b ∧ localStorage b2 = localStorage b) as [Hc Hl].
      { rewrite Hc2, Hl2. subst b1. by destruct (osEffectCleanup f). }
      destruct (followSystemTheme (finalConfig p)) eqn:Hfollow; cbn beta iota;
        (erewrite bind_Normal by exact Hsy);
        (eexists _, _; split; [reflexivity |]);
        (split; [solve_rendered; destruct (prefersDark b1); auto |]);
        (split; [| done]); cbn; eexists; (split; [done |]);
        by rewrite Hc3, Hl3, Hc, Hl.
  - (* without window *)
    pose proof (Hnone eq_refl) as Hcl.
    case_decide as Hdeps.
    + erewrite bind_Normal by reflexivity. cbn beta iota.
      erewrite bind_Normal by apply syncEffect_noWindow.
      eexists _, _. split; [reflexivity |]. split; [solve_rendered |].
      split; [reflexivity | intros _; cbn; congruence].
    + erewrite bind_Normal; cycle 1.
      { erewrite bind_Normal with (w' := None); [apply osEffect_noWindow | by rewrite Hcl]. }
      cbn beta iota. erewrite bind_Normal by apply syncEffect_noWindow.
      eexists _, _. split; [reflexivity |]. split; [solve_rendered |].
      split; [reflexivity | intros _; cbn; congruence].
Qed.

Lemma synced_Synced (p : ThemeProviderProps) (f f' : Fiber) (w w' : World) :
  props f' = p → theme f' = theme f → systemTheme f' = systemTheme f →
  synced (finalConfig p) (theme f) (effectiveTheme (theme f) (systemTheme f)) w w' →
  Synced f' w'.
Proof.
  intros Hp Ht Hs Hsy. unfold Synced, cfgOf. rewrite Hp, Ht, Hs.
  destruct w as [b |]; cbn in Hsy.
  - destruct Hsy as (b' & -> & Hc & Hl). rewrite Hc, Hl, lookup_insert_eq. eauto.
  - by subst.
Qed.

Lemma synced_None (cfg : FinalConfig) (t e : string) (w w' : World) :
  synced cfg t e w w' → (w = None ↔ w' = None).
Proof. destruct w; cbn; [intros (? & -> & _) | intros ->]; done. Qed.

Lemma renderAndCommit_spec (p : ThemeProviderProps) (f : Fiber) (w : World) :
  idsBounded f →
  (w = None → osEffectCleanup f = false) →
  (systemTheme f = "light" ∨ systemTheme f = "dark") →
  ∃ f' w', renderAndCommit p f w = Normal (f', w')
    ∧ Inv f' w' ∧ (w = None ↔ w' = None)
    ∧ props f' = p ∧ theme f' = theme f
    ∧ (osEffectDeps f = Some (followSystemTheme (finalConfig p)) →
       systemTheme f' = systemTheme f ∧ osEffectCleanup f' = osEffectCleanup f)
    ∧ (followSystemTheme (finalConfig p) = false →
       systemTheme f' = systemTheme f
       ∧ (osEffectCleanup f = false → osEffectCleanup f' = false)).
Proof.
  intros Hids Hnone Hsys. unfold renderAndCommit.
  destruct (render_spec p f w Hids Hnone)
    as (f1 & w1 & Hr1 & (Hp1 & Ht1 & Hn1 & Hb1 & Hpub1 & Hd1 & Hs1 & Hsame1 & Hoff1) & Hsy1 & Hnone1).
  erewrite bind_Normal by exact Hr1.
  pose proof (synced_None _ _ _ _ _ Hsy1) as Hw1.
  case_decide as Hst.
  - exists f1, w1. split; [done |].
    pose proof (synced_Synced _ _ _ _ _ Hp1 Ht1 Hst Hsy1) as HS.
    split; [| split_and!; (done || tauto)].
    unfold Inv, cfgOf. rewrite Hp1, Ht1, Hst. split_and!; try done; tauto.
  - assert (Hnone1' : w1 = None → osEffectCleanup f1 = false) by tauto.
    destruct (render_spec p f1 w1 Hb1 Hnone1')
      as (f2 & w2 & Hr2 & (Hp2 & Ht2 & Hn2 & Hb2 & Hpub2 & Hd2 & Hs2 & Hsame2 & Hoff2) & Hsy2 & Hnone2).
    destruct (Hsame2 Hd1) as [Hst2 Hcl2].
    pose proof (synced_None _ _ _ _ _ Hsy2) as Hw2.
    pose proof (synced_Synced _ _ _ _ _ Hp2 Ht2 Hst2 Hsy2) as HS.
    exists f2, w2. split; [done |]. split.
    + unfold Inv, cfgOf. rewrite Hp2, Ht2, Hst2. split_and!; try done; tauto.
    + split_and!; try tauto; congruence.
Qed.

Lemma setThemeState_spec (t : string) (f : Fiber) (w : World) :
  Inv f w →
  ∃ f' w', setThemeState t f w = Normal (f', w')
    ∧ Inv f' w' ∧ (w = None ↔ w' = None)
    ∧ theme f' = t ∧ props f' = props f
    ∧ systemTheme f' = systemTheme f ∧ osEffectCleanup f' = osEffectCleanup f.
Proof.
  intros (Hids & Hpub & Hdeps & Hsys & Hnone & Hsy). unfold setThemeState.
  case_decide as Ht.
  - exists f, w. by rewrite Ht.
  - destruct (renderAndCommit_spec (props f) (withTheme t f) w)
      as (f' & w' & Hr & HI & Hw & Hp & Hth & Hsame & _); [done .. |].
    destruct (Hsame Hdeps) as [Hs Hc]. exists f', w'. by rewrite Hr.
Qed.

Lemma setSystemTheme_spec (t : string) (f : Fiber) (w : World) :
  Inv f w → t = "light" ∨ t = "dark" →
  ∃ f' w', setSystemTheme t f w = Normal (f', w')
    ∧ Inv f' w' ∧ (w = None ↔ w' = None)
    ∧ theme f' = theme f ∧ props f' = props f
    ∧ systemTheme f' = t ∧ osEffectCleanup f' = osEffectCleanup f.
Proof.
  intros (Hids & Hpub & Hdeps & Hsys & Hnone & Hsy) Ht. unfold setSystemTheme.
  case_decide as Hs.
  - exists f, w. by rewrite Hs.
  - destruct (renderAndCommit_spec (props f) (withSystemTheme t f) w)
      as (f' & w' & Hr & HI & Hw & Hp & Hth & Hsame & _); [done .. |].
    destruct (Hsame Hdeps) as [Hs' Hc]. exists f', w'. by rewrite Hr.
Qed.

Lemma Inv_setPrefersDark (f : Fiber) (b : Browser) (m : bool) :
  Inv f (Some b) → Inv f (Some (setPrefersDark m b)).
Proof. intros (? & ? & ? & ? & ? & ?). by split_and!. Qed.

Lemma dispatch_spec (e : Event) (f : Fiber) (w : World) :
  Inv f w →
  ∃ f' w', dispatch e f w = Normal (f', w')
    ∧ Inv f' w' ∧ (w = None ↔ w' = None) ∧ stepped e f f'.
Proof.
  intros HI. unfold stepped. destruct e as [t | | m | p]; cbn [dispatch].
  - destruct (setThemeState_spec t f w HI) as (f' & w' & Hr & HI' & Hw & Ht & Hp & Hs & Hc).
    exists f', w'. split_and!; try done.
    intros (Hl & Hcl & Hoff) _. right. unfold Unsubscribed. by rewrite Hs, Hc, Hp.
  - destruct (setThemeState_spec (toggleTheme (theme f)) f w HI)
      as (f' & w' & Hr & HI' & Hw & Ht & Hp & Hs & Hc).
    exists f', w'. split_and!; try done.
    intros (Hl & Hcl & Hoff) _. right. unfold Unsubscribed. by rewrite Hs, Hc, Hp.
  - unfold mediaChange. destruct w as [b |]; [| by exists f, None; split_and!; auto].
    destruct (osEffectCleanup f) eqn:Hcl.
    + destruct (setSystemTheme_spec (if m then "dark" else "light") f
                  (Some (setPrefersDark m b)))
        as (f' & w' & Hr & HI' & Hw & Ht & Hp & Hs & Hc).
      { by apply Inv_setPrefersDark. }
      { destruct m; auto. }
      exists f', w'. split_and!; try done.
      * split; [done |]. intros ->. destruct Hw as [_ Hw]. by specialize (Hw eq_refl).
      * intros (_ & Hcl' & _). congruence.
    + exists f, (Some (setPrefersDark m b)). split_and!; try done; auto.
      by apply Inv_setPrefersDark.
  - destruct HI as (Hids & Hpub & Hdeps & Hsys & Hnone & Hsy).
    destruct (renderAndCommit_spec p f w)
      as (f' & w' & Hr & HI & Hw & Hp & Hth & _ & Hoff); [done .. |].
    exists f', w'. split_and!; try done.
    intros (Hl & Hcl & _) Hp'. right. destruct (Hoff Hp') as [Hs Hc].
    unfold Unsubscribed. rewrite Hs, Hp. auto.
Qed.

Lemma run_invariant (I : Fiber → World → Prop) (E : Event → Prop) :
  (∀ e f w, E e → I f w → ∃ f' w', dispatch e f w = Normal (f', w') ∧ I f' w') →
  ∀ es f w, Forall E es → I f w →
    ∃ f' w', run es f w = Normal (f', w') ∧ I f' w'.
Proof.
  intros Hstep es. induction es as [| e es IH]; intros f w HE HI.
  - by exists f, w.
  - inversion_clear HE as [| ? ? He Hes].
    destruct (Hstep e f w He HI) as (f1 & w1 & Hd & HI1).
    destruct (IH f1 w1 Hes HI1) as (f2 & w2 & Hr & HI2).
    exists f2, w2. split; [| done]. cbn [run]. by erewrite bind_Normal.
Qed.

Lemma run_app (es1 es2 : list Event) (f : Fiber) (w : World) :
  run (es1 ++ es2) f w = (run es1 f ≫= run es2) w.
Proof.
  revert f w. induction es1 as [| e es1 IH]; intros f w; [done |].
  cbn [run app]. unfold mbind, Js_bind.
  destruct (dispatch e f w) as [[f1 w1] | err]; [| done]. apply IH.
Qed.

Lemma mount_spec (p : ThemeProviderProps) (w : World) :
  ∃ f w', mount p w = Normal (f, w')
    ∧ Inv f w' ∧ (w = None ↔ w' = None) ∧ props f = p
    ∧ theme f = match w with
                | Some b => orDefault (localStorage b !! storageKey (finalConfig p))
                              (default "light" (defaultTheme p))
                | None => default "light" (defaultTheme p)
                end
    ∧ (followOff p → Unsubscribed f).
Proof.
  unfold mount.
  set (t := match w with
            | Some b => orDefault (localStorage b !! storageKey (finalConfig p))
                          (default "light" (defaultTheme p))
            | None => default "light" (defaultTheme p)
            end).
  assert (Hinit : initialTheme (finalConfig p) (default "light" (defaultTheme p)) w
                  = Normal (t, w)) by (by destruct w).
  erewrite bind_Normal by exact Hinit.
  match goal with |- context [renderAndCommit p ?x] => set (f0 := x) end.
  destruct (renderAndCommit_spec p f0 w)
    as (f' & w' & Hr & HI & Hw & Hp & Hth & _ & Hoff).
  { split; intros; discriminate. }
  { done. }
  { by left. }
  exists f', w'. split_and!; try done.
  intros Hf. destruct (Hoff Hf) as [Hs Hc]. unfold Unsubscribed.
  rewrite Hs, Hp. auto.
Qed.

Lemma session_spec (p : ThemeProviderProps) (es : list Event) (w : World) :
  ∃ f w', session p es w = Normal (f, w') ∧ Inv f w' ∧ (w = None ↔ w' = None).
Proof.
  destruct (mount_spec p w) as (f0 & w0 & Hm & HI0 & Hw0 & _).
  destruct (run_invariant (λ f w', Inv f w' ∧ (w = None ↔ w' = None)) (λ _, True))
    with (es := es) (f := f0) (w := w0) as (f & w' & Hr & HI & Hw); [| | done |].
  - intros e f1 w1 _ [HI1 Hw1].
    destruct (dispatch_spec e f1 w1 HI1) as (f2 & w2 & Hd & HI2 & Hw2 & _).
    exists f2, w2. split_and!; try done; tauto.
  - by apply Forall_true.
  - exists f, w'. split; [| done]. unfold session. by erewrite bind_Normal.
Qed.

Lemma session_browser (p : ThemeProviderProps) (es : list Event) (b : Browser) :
  ∃ f b', session p es (Some b) = Normal (f, Some b') ∧ Inv f (Some b').
Proof.
  destruct (session_spec p es (Some b)) as (f & w' & Hs & HI & Hw).
  destruct w' as [b' |]; [by exists f, b' |].
  destruct Hw as [_ Hw]. by specialize (Hw eq_refl).
Qed.

Lemma session_snoc (p : ThemeProviderProps) (es : list Event) (e : Event)
    (w w' : World) (f : Fiber) :
  session p es w = Normal (f, w') →
  session p (es ++ [e]) w = dispatch e f w'.
Proof.
  unfold session, mbind, Js_bind. destruct (mount p w) as [[f0 w0] | err]; [| done].
  rewrite run_app. unfold mbind, Js_bind. intros ->. cbn [run].
  unfold mbind, Js_bind. by destruct (dispatch e f w') as [[? ?] | ?].
Qed.

Lemma published_value (f : Fiber) (w : World) :
  Inv f w →
  ∃ v, published f = Some v
    ∧ ThemeContextType.theme v = theme f
    ∧ ThemeContextType.systemTheme v = systemTheme f
    ∧ ThemeContextType.effectiveTheme v = effectiveTheme (theme f) (systemTheme f)
    ∧ ThemeContextType.config v = cfgOf f.
Proof. intros (_ & Hpub & _). eexists. split; [exact Hpub |]. done. Qed.

(** ** The class list after a run of the second effect *)

Lemma syncTokens_applied (cfg : FinalConfig) (e : string) (l : list string) :
  (disableTransition cfg = true → appliedClass cfg e ≠ "no-transitions") →
  appliedClass cfg e ∈ syncTokens cfg e l.
Proof.
  intros Hnt. unfold syncTokens. destruct (disableTransition cfg); cbn [id].
  - rewrite elem_of_tokensRemove, elem_of_tokensAdd, list_elem_of_singleton. auto.
  - rewrite elem_of_tokensAdd. auto.
Qed.

Lemma syncTokens_others (cfg : FinalConfig) (e c : string) (l : list string) :
  c ∈ [lightClass cfg; darkClass cfg; systemClass cfg] →
  c ≠ appliedClass cfg e →
  c ∉ syncTokens cfg e l.
Proof.
  intros Hc Hne. unfold syncTokens. destruct (disableTransition cfg); cbn [id];
    rewrite ?elem_of_tokensRemove, elem_of_tokensAdd, elem_of_tokensRemove; tauto.
Qed.

Lemma syncTokens_marker (cfg : FinalConfig) (e : string) (l : list string) :
  if disableTransition cfg then "no-transitions" ∉ syncTokens cfg e l
  else (appliedClass cfg e ≠ "no-transitions" →
        "no-transitions" ∈ syncTokens cfg e l → "no-transitions" ∈ l).
Proof.
  unfold syncTokens. destruct (disableTransition cfg); cbn [id].
  - rewrite elem_of_tokensRemove, list_elem_of_singleton. tauto.
  - rewrite elem_of_tokensAdd, elem_of_tokensRemove. intros Hne [Heq | [Hin _]]; done.
Qed.

Lemma effective_of_theme (t s : string) :
  isTheme t → s = "light" ∨ s = "dark" →
  effectiveTheme t s = "light" ∨ effectiveTheme t s = "dark".
Proof.
  intros [m ->] Hs. unfold effectiveTheme. destruct m; cbn; case_decide; auto; done.
Qed.

Lemma oneThemeClass_syncTokens (cfg : FinalConfig) (e : string) (l0 : list string) :
  e = "light" ∨ e = "dark" →
  distinctClasses cfg →
  oneThemeClass cfg (syncTokens cfg e l0)
  ∧ (darkClass cfg ∈ syncTokens cfg e l0 ↔ e = "dark")
  ∧ (lightClass cfg ∈ syncTokens cfg e l0 ↔ e = "light").
Proof.
  intros He [Hnd Hnt]. unfold oneThemeClass.
  apply NoDup_cons in Hnd as [Hl Hnd]. apply NoDup_cons in Hnd as [Hd _].
  repeat rewrite not_elem_of_cons in Hl. repeat rewrite not_elem_of_cons in Hd.
  destruct Hl as (Hld & Hls & _), Hd as (Hds & _).
  assert (Happ : appliedClass cfg e = if decide (e = "dark") then darkClass cfg
                                      else lightClass cfg).
  { unfold appliedClass. destruct He as [-> | ->]; by repeat case_decide. }
  pose proof (syncTokens_applied cfg e l0) as Hin.
  pose proof (λ c, syncTokens_others cfg e c l0) as Hout.
  rewrite Happ in Hin, Hout.
  destruct He as [-> | ->]; case_decide; try done.
  - assert (lightClass cfg ∈ syncTokens cfg "light" l0)
      by (apply Hin; intros Hdt; by destruct (Hnt Hdt)).
    assert (darkClass cfg ∉ syncTokens cfg "light" l0)
      by (apply Hout; [by repeat constructor | congruence]).
    assert (systemClass cfg ∉ syncTokens cfg "light" l0)
      by (apply Hout; [by repeat constructor | congruence]).
    split_and!; try done; split; try done.
  - assert (darkClass cfg ∈ syncTokens cfg "dark" l0)
      by (apply Hin; intros Hdt; by destruct (Hnt Hdt)).
    assert (lightClass cfg ∉ syncTokens cfg "dark" l0)
      by (apply Hout; [by repeat constructor | congruence]).
    assert (systemClass cfg ∉ syncTokens cfg "dark" l0)
      by (apply Hout; [by repeat constructor | congruence]).
    split_and!; try done; split; try done.
Qed.

(** ** The second effect over the class list as the DOM has it *)

#[local] Arguments firstInvalid : simpl never.
#[local] Arguments validToken : simpl never.

Lemma validToken_marker : validToken "no-transitions" = true.
Proof. reflexivity. Qed.

Lemma validClasses_tokens (cfg : FinalConfig) :
  validClasses cfg = true →
  validToken (lightClass cfg) = true ∧ validToken (darkClass cfg) = true
  ∧ validToken (systemClass cfg) = true.
Proof.
  unfold validClasses. intros H. apply andb_prop in H as [H Hs].
  apply andb_prop in H as [Hl Hd]. done.
Qed.

Lemma firstInvalid_valid (cfg : FinalConfig) :
  validClasses cfg = true →
  firstInvalid [lightClass cfg; darkClass cfg; systemClass cfg] = None.
Proof.
  intros H. destruct (validClasses_tokens cfg H) as (Hl & Hd & Hs).
  unfold firstInvalid. by rewrite Hl, Hd, Hs.
Qed.

Lemma firstInvalid_invalid (cfg : FinalConfig) :
  validClasses cfg = false →
  ∃ c, firstInvalid [lightClass cfg; darkClass cfg; systemClass cfg] = Some c
    ∧ validToken c = false.
Proof.
  unfold validClasses, firstInvalid.
  destruct (validToken (lightClass cfg)) eqn:Hl; [| eauto].
  destruct (validToken (darkClass cfg)) eqn:Hd; [| eauto].
  destruct (validToken (systemClass cfg)) eqn:Hs; [done | eauto].
Qed.

Lemma validClasses_applied (cfg : FinalConfig) (e : string) :
  validClasses cfg = true → validToken (appliedClass cfg e) = true.
Proof.
  intros H. destruct (validClasses_tokens cfg H) as (Hl & Hd & Hs).
  unfold appliedClass. by repeat case_decide.
Qed.

Lemma appliedClass_chain_dom (cfg : FinalConfig) (e : string) :
  (if decide (e = "dark") then DOMTokenList_add (darkClass cfg)
   else if decide (e = "light") then DOMTokenList_add (lightClass cfg)
   else DOMTokenList_add (systemClass cfg)) = DOMTokenList_add (appliedClass cfg e).
Proof. unfold appliedClass. by repeat case_decide. Qed.

(** With class names the class list accepts, the run completes and does
    what the run over accepted tokens does. *)
Lemma syncEffectDom_valid (cfg : FinalConfig) (t e : string) (b : Browser) :
  validClasses cfg = true →
  ∃ b', syncEffectDom cfg t e b = (Normal tt, b')
    ∧ syncEffect cfg t e (Some b) = Normal (tt, Some b')
    ∧ classList b' = syncTokens cfg e (classList b)
    ∧ calls b' = calls b ++ syncCalls cfg t e.
Proof.
  intros Hv. destruct (syncEffect_calls cfg t e b) as (b' & Hrun & Hc & _ & _ & Hk).
  exists b'. split_and!; try done. revert Hrun.
  unfold syncEffectDom, syncEffect. rewrite appliedClass_chain, appliedClass_chain_dom.
  pose proof (firstInvalid_valid cfg Hv) as Hf.
  pose proof (validClasses_applied cfg e Hv) as Ha.
  unfold mbind, Dom_bind, Js_bind, DOMTokenList_add, DOMTokenList_remove.
  destruct (disableTransition cfg); cbn; rewrite ?validToken_marker, Hf, Ha; cbn;
    rewrite ?Hf; by intros [= <-].
Qed.

Lemma syncEffectChecked_valid (cfg : FinalConfig) (t e : string) (w : World) :
  validClasses cfg = true → syncEffectChecked cfg t e w = syncEffect cfg t e w.
Proof.
  intros Hv. destruct w as [b |]; [| done].
  destruct (syncEffectDom_valid cfg t e b Hv) as (b' & Hd & Hs & _).
  rewrite Hs. unfold syncEffectChecked, mbind, Js_bind. cbn. by rewrite Hd.
Qed.

(** With a class name the class list refuses, the run stops at
    [classList.remove]: nothing but the marker, where it is in use, has
    been put on the root, and nothing takes it off again. *)
Lemma syncEffectDom_invalid (cfg : FinalConfig) (t e : string) (b : Browser) :
  validClasses cfg = false →
  ∃ c, firstInvalid [lightClass cfg; darkClass cfg; systemClass cfg] = Some c
    ∧ syncEffectDom cfg t e b
      = (Throw (tokenError c),
         if disableTransition cfg
         then logCall (ClassListAdd "no-transitions")
                (setClassList (tokensAdd "no-transitions" (classList b)) b)
         else b).
Proof.
  intros Hv. destruct (firstInvalid_invalid cfg Hv) as (c & Hf & _).
  exists c. split; [done |].
  unfold syncEffectDom, mbind, Dom_bind, DOMTokenList_add, DOMTokenList_remove.
  destruct (disableTransition cfg); cbn; by rewrite ?validToken_marker, Hf.
Qed.

(** ** Agreement of the two providers *)

Lemma dispatchWith_syncEffect (e : Event) (f : Fiber) :
  dispatchWith syncEffect e f = dispatch e f.
Proof. by destruct e. Qed.

Lemma runWith_syncEffect (es : list Event) (f : Fiber) (w : World) :
  runWith syncEffect es f w = run es f w.
Proof.
  revert f w. induction es as [| e es IH]; intros f w; [done |].
  cbn [runWith run]. unfold mbind, Js_bind. rewrite dispatchWith_syncEffect.
  destruct (dispatch e f w) as [[f1 w1] | err]; [apply IH | done].
Qed.

Lemma sessionWith_syncEffect (p : ThemeProviderProps) (es : list Event) (w : World) :
  sessionWith syncEffect p es w = session p es w.
Proof.
  unfold sessionWith, session, mbind, Js_bind.
  change (mountWith syncEffect p w) with (mount p w).
  destruct (mount p w) as [[f w1] | err]; [apply runWith_syncEffect | done].
Qed.

Lemma renderWith_ext (s1 s2 : FinalConfig → string → string → Js unit)
    (p : ThemeProviderProps) (f : Fiber) (w : World) :
  agreeOn s1 s2 p → renderWith s1 p f w = renderWith s2 p f w.
Proof.
  intros Hag. unfold renderWith, mbind, Js_bind.
  match goal with |- match ?x with _ => _ end = _ =>
    destruct x as [[[set cl] w1] | err] end; [| done].
  case_decide; [done |]. by rewrite Hag.
Qed.

Lemma renderWith_props (s : FinalConfig → string → string → Js unit)
    (p : ThemeProviderProps) (f f' : Fiber) (w w' : World) :
  renderWith s p f w = Normal (f', w') → props f' = p.
Proof.
  unfold renderWith, mbind, Js_bind.
  match goal with |- match ?x with _ => _ end = _ → _ =>
    destruct x as [[[set cl] w1] | err] end; [| done].
  match goal with |- match ?x with _ => _ end = _ → _ =>
    destruct x as [[[] w2] | err] end; [| done].
  by intros [= <- _].
Qed.

Lemma renderAndCommitWith_ext (s1 s2 : FinalConfig → string → string → Js unit)
    (p : ThemeProviderProps) (f : Fiber) (w : World) :
  agreeOn s1 s2 p → renderAndCommitWith s1 p f w = renderAndCommitWith s2 p f w.
Proof.
  intros Hag. unfold renderAndCommitWith, mbind, Js_bind.
  rewrite (renderWith_ext s1 s2 p f w Hag).
  destruct (renderWith s2 p f w) as [[f1 w1] | err]; [| done].
  case_decide; [done |]. by apply renderWith_ext.
Qed.

Lemma renderAndCommitWith_props (s : FinalConfig → string → string → Js unit)
    (p : ThemeProviderProps) (f f' : Fiber) (w w' : World) :
  renderAndCommitWith s p f w = Normal (f', w') → props f' = p.
Proof.
  unfold renderAndCommitWith, mbind, Js_bind.
  destruct (renderWith s p f w) as [[f1 w1] | err] eqn:Hr; [| done].
  case_decide.
  - intros [= <- _]. by eapply renderWith_props.
  - by apply renderWith_props.
Qed.

Lemma dispatchWith_ext (s1 s2 : FinalConfig → string → string → Js unit)
    (e : Event) (f : Fiber) (w : World) :
  agreeOn s1 s2 (props f) →
  (∀ p, e = Rerender p → agreeOn s1 s2 p) →
  dispatchWith s1 e f w = dispatchWith s2 e f w.
Proof.
  intros Hf He. destruct e as [t | | m | p]; cbn [dispatchWith].
  - unfold setThemeStateWith. case_decide; [done |].
    by apply (renderAndCommitWith_ext s1 s2 (props f) (withTheme t f)).
  - unfold setThemeStateWith. case_decide; [done |].
    by apply (renderAndCommitWith_ext s1 s2 (props f) (withTheme _ f)).
  - unfold mediaChangeWith. destruct w as [b |]; [| done].
    destruct (osEffectCleanup f); [| done].
    unfold setSystemThemeWith. case_decide; [done |].
    by apply (renderAndCommitWith_ext s1 s2 (props f) (withSystemTheme _ f)).
  - apply renderAndCommitWith_ext. by apply He.
Qed.

Lemma dispatchWith_props (s : FinalConfig → string → string → Js unit)
    (e : Event) (f f' : Fiber) (w w' : World) :
  dispatchWith s e f w = Normal (f', w') →
  props f' = match e with Rerender p => p | _ => props f end.
Proof.
  destruct e as [t | | m | p]; cbn [dispatchWith].
  - unfold setThemeStateWith. case_decide; [by intros [= <- _] |].
    apply renderAndCommitWith_props.
  - unfold setThemeStateWith. case_decide; [by intros [= <- _] |].
    apply renderAndCommitWith_props.
  - unfold mediaChangeWith. destruct w as [b |]; [| by intros [= <- _]].
    destruct (osEffectCleanup f); [| by intros [= <- _]].
    unfold setSystemThemeWith. case_decide; [by intros [= <- _] |].
    apply renderAndCommitWith_props.
  - apply renderAndCommitWith_props.
Qed.

Lemma runWith_ext (s1 s2 : FinalConfig → string → string → Js unit)
    (es : list Event) (f : Fiber) (w : World) :
  agreeOn s1 s2 (props f) →
  Forall (λ e, ∀ p, e = Rerender p → agreeOn s1 s2 p) es →
  runWith s1 es f w = runWith s2 es f w.
Proof.
  revert f w. induction es as [| e es IH]; intros f w Hf Hes; [done |].
  inversion_clear Hes as [| ? ? He Hes'].
  cbn [runWith]. unfold mbind, Js_bind.
  rewrite (dispatchWith_ext s1 s2 e f w Hf He).
  destruct (dispatchWith s2 e f w) as [[f1 w1] | err] eqn:Hd; [| done].
  apply IH; [| done]. rewrite (dispatchWith_props _ _ _ _ _ _ Hd).
  destruct e; try done. by apply He.
Qed.

Lemma sessionWith_ext (s1 s2 : FinalConfig → string → string → Js unit)
    (p : ThemeProviderProps) (es : list Event) (w : World) :
  agreeOn s1 s2 p →
  Forall (λ e, ∀ q, e = Rerender q → agreeOn s1 s2 q) es →
  sessionWith s1 p es w = sessionWith s2 p es w.
Proof.
  intros Hp Hes. unfold sessionWith, mountWith, mbind, Js_bind.
  destruct (initialTheme (finalConfig p) (default "light" (defaultTheme p)) w)
    as [[t w0] | err]; [| done].
  rewrite (renderAndCommitWith_ext s1 s2 p _ w0 Hp).
  match goal with |- context [renderAndCommitWith s2 p ?x w0] =>
    destruct (renderAndCommitWith s2 p x w0) as [[f1 w1] | err] eqn:Hr end; [| done].
  apply runWith_ext; [| done]. by rewrite (renderAndCommitWith_props _ _ _ _ _ _ Hr).
Qed.

(** With class names the class list accepts in every configuration it is
    rendered with, the provider over the class list as the DOM has it is
    the provider over accepted tokens. *)
Lemma sessionChecked_session (p : ThemeProviderProps) (es : list Event) (w : World) :
  validClasses (finalConfig p) = true → Forall eventValidClasses es →
  sessionChecked p es w = session p es w.
Proof.
  intros Hp Hes. unfold sessionChecked. rewrite <- sessionWith_syncEffect.
  apply sessionWith_ext.
  - intros t e w0. by apply syncEffectChecked_valid.
  - eapply Forall_impl; [exact Hes |]. intros e He q ->. intros t e' w0.
    by apply syncEffectChecked_valid.
Qed.

(** A class name the class list refuses ends the provider at its first
    commit. *)
Lemma mountChecked_invalid (p : ThemeProviderProps) (b : Browser) :
  validClasses (finalConfig p) = false →
  ∃ c, firstInvalid [lightClass (finalConfig p); darkClass (finalConfig p);
                     systemClass (finalConfig p)] = Some c
    ∧ mountChecked p (Some b) = Throw (tokenError c).
Proof.
  intros Hv. destruct (firstInvalid_invalid _ Hv) as (c & Hf & _).
  exists c. split; [done |].
  assert (Hsync : ∀ t e b0, syncEffectChecked (finalConfig p) t e (Some b0)
                            = Throw (tokenError c)).
  { intros t e b0. destruct (syncEffectDom_invalid (finalConfig p) t e b0 Hv)
      as (c' & Hf' & Hd). rewrite Hf in Hf'. injection Hf' as <-.
    unfold syncEffectChecked, mbind, Js_bind. cbn. by rewrite Hd. }
  unfold mountChecked, mountWith. erewrite bind_Normal by reflexivity.
  unfold renderAndCommitWith, renderWith.
  cbn [osEffectDeps osEffectCleanup syncEffectDeps].
  destruct (osEffect_calls (finalConfig p) b) as (b1 & Hos & _).
  unfold mbind, Js_bind. cbn [mret Js_ret]. rewrite !decide_False by done.
  rewrite Hos. destruct (followSystemTheme (finalConfig p)); by rewrite Hsync.
Qed.

(** * The claims *)

(** ** Initialization *)

(** C1, as amended: in a browser the provider starts from the string stored
    under the configured key whenever that string is present and not empty,
    whether or not it is one of the three literals; when nothing is stored,
    or the empty string is, it starts from the default theme of the caller,
    which is ["light"] when the caller gives none. *)
Theorem initial_theme_from_storage (p : ThemeProviderProps) (b : Browser) :
  let dflt := match defaultTheme p with Some d => d | None => "light" end in
  ∃ f w', mount p (Some b) = Normal (f, w')
    ∧ initialTheme (finalConfig p) dflt (Some b) = Normal (theme f, Some b)
    ∧ match localStorage b !! storageKey (finalConfig p) with
      | Some s => (s ≠ EmptyString → theme f = s) ∧ (s = EmptyString → theme f = dflt)
      | None => theme f = dflt
      end.
Proof.
  intros dflt. destruct (mount_spec p (Some b)) as (f & w' & Hm & _ & _ & _ & Ht & _).
  assert (Hd : default "light" (defaultTheme p) = dflt) by (subst dflt; by destruct (defaultTheme p)).
  rewrite Hd in Ht. exists f, w'. split; [done |]. rewrite Ht. split; [done |].
  unfold orDefault. destruct (localStorage b !! storageKey (finalConfig p)) as [s |]; [| done].
  case_decide; split; done.
Qed.

(** C1 fails as stated: a stored string that is no [Theme] is not replaced by
    the default. *)
Lemma initial_theme_invalid_stored :
  ¬ isTheme "banana"
  ∧ localStorage storedBanana !! storageKey (finalConfig defaultProps) = Some "banana"
  ∧ themeAfter (mount defaultProps (Some storedBanana)) = Some "banana"
  ∧ themeAfter (mount defaultProps (Some storedBanana))
    ≠ Some (default "light" (defaultTheme defaultProps)).
Proof.
  split_and!.
  - intros [[] H]; discriminate H.
  - reflexivity.
  - vm_compute. reflexivity.
  - vm_compute. discriminate.
Qed.

(** The stored value wins over the default given by the caller. *)
Example stored_dark_precedence :
  themeAfter (mount {| defaultTheme := Some "light"; config := Some customKeyConfig |}
                (Some storedDark)) = Some "dark".
Proof. vm_compute. reflexivity. Qed.

(** ** The class on the document root *)

(** C2, as amended: when the selected theme is one of the three literals,
    the configured light, dark and system class names are tokens the class
    list accepts (not empty, without white space), differ from each other
    and, with [disableTransition] on, neither the light nor the dark
    class is named ["no-transitions"], every run of the second effect
    completes and leaves exactly one of the light and dark classes on the
    root, the one of the effective theme, and no system class; and so does
    every state reached by a provider in a browser whose configurations
    all have class names the class list accepts. *)
Theorem sync_one_theme_class :
  (∀ (cfg : FinalConfig) (t s : string) (b : Browser),
     isTheme t → s = "light" ∨ s = "dark" →
     validClasses cfg = true → distinctClasses cfg →
     ∃ b', syncEffectDom cfg t (effectiveTheme t s) b = (Normal tt, b')
       ∧ oneThemeClass cfg (classList b')
       ∧ (darkClass cfg ∈ classList b' ↔ effectiveTheme t s = "dark")
       ∧ (lightClass cfg ∈ classList b' ↔ effectiveTheme t s = "light"))
  ∧ (∀ (p : ThemeProviderProps) (es : list Event) (b : Browser),
       validClasses (finalConfig p) = true → Forall eventValidClasses es →
       ∃ f b', sessionChecked p es (Some b) = Normal (f, Some b')
         ∧ (isTheme (theme f) → distinctClasses (cfgOf f) →
            oneThemeClass (cfgOf f) (classList b')
            ∧ (darkClass (cfgOf f) ∈ classList b'
               ↔ effectiveTheme (theme f) (systemTheme f) = "dark")
            ∧ (lightClass (cfgOf f) ∈ classList b'
               ↔ effectiveTheme (theme f) (systemTheme f) = "light"))).
Proof.
  split.
  - intros cfg t s b Ht Hs Hv Hnd.
    destruct (syncEffectDom_valid cfg t (effectiveTheme t s) b Hv)
      as (b' & Hrun & _ & Hc & _).
    exists b'. split; [done |]. rewrite Hc.
    apply oneThemeClass_syncTokens; [by apply effective_of_theme | done].
  - intros p es b Hv Hes. rewrite (sessionChecked_session p es _ Hv Hes).
    destruct (session_browser p es b) as (f & b' & Hrun & HI).
    exists f, b'. split; [done |]. intros Ht Hnd.
    destruct HI as (_ & _ & _ & Hs & _ & [l0 Hc] & _). rewrite Hc.
    apply oneThemeClass_syncTokens; [by apply effective_of_theme | done].
Qed.

Lemma sync_one_theme_class_witness :
  (∃ b', syncEffectDom (finalConfig defaultProps) "system"
           (effectiveTheme "system" "dark") freshBrowser = (Normal tt, b')
     ∧ oneThemeClass (finalConfig defaultProps) (classList b'))
  ∧ ∃ f b', sessionChecked defaultProps [ToggleTheme] (Some freshBrowser)
            = Normal (f, Some b')
      ∧ oneThemeClass (cfgOf f) (classList b')
      ∧ (darkClass (cfgOf f) ∈ classList b'
         ↔ effectiveTheme (theme f) (systemTheme f) = "dark")
      ∧ (lightClass (cfgOf f) ∈ classList b'
         ↔ effectiveTheme (theme f) (systemTheme f) = "light").
Proof.
  destruct sync_one_theme_class as [Heffect Hsession].
  assert (Hdistinct : distinctClasses (finalConfig defaultProps)).
  { split; [apply (bool_decide_unpack _); by vm_compute | discriminate]. }
  split.
  - destruct (Heffect (finalConfig defaultProps) "system" "dark" freshBrowser)
      as (b' & Hrun & Hone & _); [by exists System | by right | reflexivity | done |].
    by exists b'.
  - destruct (Hsession defaultProps [ToggleTheme] freshBrowser)
      as (f & b' & Hrun & Hone); [reflexivity | repeat constructor |].
    exists f, b'. split; [exact Hrun |].
    vm_compute in Hrun. injection Hrun as <- <-. apply Hone; [by exists Dark | done].
Defined.

(** C2 fails as stated: a stored string that is no [Theme] reaches the last
    branch of the effect, which adds the system class and neither of the
    other two; one name configured for both classes counts for both; a
    light class named like the marker is taken off again with the marker;
    and a class name the class list refuses stops the run before any of
    the classes is added. *)
Lemma sync_class_not_exactly_one :
  (classesAfter (mountChecked defaultProps (Some storedBanana)) = Some ["system"]
   ∧ ¬ oneThemeClass (finalConfig defaultProps) ["system"])
  ∧ (classesAfter (mountChecked (withConfig sameClassConfig) (Some freshBrowser))
     = Some ["theme"]
     ∧ ¬ oneThemeClass (finalConfig (withConfig sameClassConfig)) ["theme"])
  ∧ (classesAfter (mountChecked (withConfig (markerClassConfig true)) (Some freshBrowser))
     = Some []
     ∧ ¬ oneThemeClass (finalConfig (withConfig (markerClassConfig true))) [])
  ∧ (thrown (syncEffectDom (finalConfig (withConfig emptyDarkConfig)) "light" "light"
               freshBrowser) = Some (DOMException "SyntaxError")
     ∧ classesLeft (syncEffectDom (finalConfig (withConfig emptyDarkConfig))
                      "light" "light" freshBrowser) = ["no-transitions"]
     ∧ ¬ oneThemeClass (finalConfig (withConfig emptyDarkConfig)) ["no-transitions"]).
Proof.
  split_and!; try (vm_compute; reflexivity); unfold oneThemeClass; cbn.
  - intros [_ H]. apply H. by left.
  - intros [[H _] _]. apply H; by left.
  - intros [[_ H] _]. eapply elem_of_nil, H. apply not_elem_of_nil.
  - intros [[_ H] _]. assert (Hin : "light" ∈ ["no-transitions"]).
    { apply H. rewrite list_elem_of_singleton. discriminate. }
    apply list_elem_of_singleton in Hin. discriminate Hin.
Qed.

(** ** The effective theme *)

(** C3: after any sequence of events the context value handed to consumers
    carries the current theme and system theme, and its effective theme is
    the system theme when the theme is ["system"] and the theme itself
    otherwise. The value is computed anew in every render: its cached copy
    is never reused, because the dependency list holds the configuration
    object of the render. *)
Theorem effective_theme_derived (p : ThemeProviderProps) (es : list Event) (w : World) :
  ∃ f w' v, session p es w = Normal (f, w')
    ∧ useTheme (childScope f []) w' = Normal (v, w')
    ∧ ThemeContextType.theme v = theme f
    ∧ ThemeContextType.systemTheme v = systemTheme f
    ∧ (theme f = "system" → ThemeContextType.effectiveTheme v = systemTheme f)
    ∧ (theme f ≠ "system" → ThemeContextType.effectiveTheme v = theme f).
Proof.
  destruct (session_spec p es w) as (f & w' & Hrun & HI & _).
  destruct (published_value f w' HI) as (v & Hpub & Ht & Hs & He & _).
  exists f, w', v. split; [done |]. split.
  { unfold childScope. rewrite Hpub. reflexivity. }
  rewrite He. unfold effectiveTheme. split_and!; try done; intros; by case_decide.
Qed.

(** ** toggleTheme *)

Lemma toggleTheme_cycle (m : Theme) :
  toggleTheme (literal m) = literal match m with
                                    | Light => Dark
                                    | Dark => System
                                    | System => Light
                                    end.
Proof. by destruct m. Qed.

Lemma toggle_event (f : Fiber) (w : World) :
  Inv f w →
  ∃ f' w', dispatch ToggleTheme f w = Normal (f', w') ∧ Inv f' w'
    ∧ theme f' = toggleTheme (theme f) ∧ systemTheme f' = systemTheme f.
Proof.
  intros HI. destruct (dispatch_spec ToggleTheme f w HI)
    as (f' & w' & Hd & HI' & _ & Ht & _ & Hs & _).
  by exists f', w'.
Qed.

(** C4: [toggleTheme] sends light to dark, dark to system and system to
    light; the theme after a toggle of a mounted provider is that function
    of the theme before, whatever the system theme is, and the system theme
    is left alone; three toggles bring every [Theme] back to itself. *)
Theorem toggle_three_cycle :
  (toggleTheme "light" = "dark" ∧ toggleTheme "dark" = "system"
   ∧ toggleTheme "system" = "light")
  ∧ (∀ m : Theme, iter 3 toggleTheme (literal m) = literal m)
  ∧ (∀ (p : ThemeProviderProps) (es : list Event) (w : World),
       ∃ f w' f1 w1,
         session p es w = Normal (f, w')
         ∧ session p (es ++ [ToggleTheme]) w = Normal (f1, w1)
         ∧ theme f1 = toggleTheme (theme f)
         ∧ systemTheme f1 = systemTheme f
         ∧ ∃ f3 w3,
             run [ToggleTheme; ToggleTheme; ToggleTheme] f w' = Normal (f3, w3)
             ∧ theme f3 = iter 3 toggleTheme (theme f)).
Proof.
  split_and!; try done.
  - by intros [].
  - intros p es w. destruct (session_spec p es w) as (f & w' & Hrun & HI & _).
    destruct (toggle_event f w' HI) as (f1 & w1 & Hd1 & HI1 & Ht1 & Hs1).
    destruct (toggle_event f1 w1 HI1) as (f2 & w2 & Hd2 & HI2 & Ht2 & Hs2).
    destruct (toggle_event f2 w2 HI2) as (f3 & w3 & Hd3 & HI3 & Ht3 & Hs3).
    exists f, w', f1, w1. split_and!; try done.
    { by rewrite (session_snoc p es ToggleTheme w w' f Hrun). }
    exists f3, w3. split.
    + cbn [run]. erewrite bind_Normal by exact Hd1.
      erewrite bind_Normal by exact Hd2. erewrite bind_Normal by exact Hd3. done.
    + cbn [iter]. congruence.
Qed.

(** C10: every string other than ["light"] and ["dark"] is toggled to
    ["light"], the literal ["system"] and strings that are no [Theme] alike;
    a provider that holds such a string, however it came to hold it,
    completes the toggle and holds ["light"] afterwards. *)
Theorem toggle_other_to_light (t : string) (p : ThemeProviderProps)
    (es : list Event) (w w' : World) (f : Fiber) :
  t ≠ "light" → t ≠ "dark" →
  toggleTheme t = "light"
  ∧ (session p es w = Normal (f, w') → theme f = t →
     ∃ f1 w1, session p (es ++ [ToggleTheme]) w = Normal (f1, w1)
       ∧ theme f1 = "light").
Proof.
  intros Hl Hd.
  assert (Htog : toggleTheme t = "light") by (unfold toggleTheme; by repeat case_decide).
  split; [done |]. intros Hrun Ht.
  destruct (session_spec p es w) as (f0 & w0 & Hrun0 & HI0 & _).
  rewrite Hrun in Hrun0. injection Hrun0 as <- <-.
  destruct (toggle_event f w' HI0) as (f1 & w1 & Hd1 & _ & Ht1 & _).
  exists f1, w1. split; [by erewrite session_snoc | congruence].
Qed.

Lemma toggle_other_to_light_witness :
  toggleTheme "banana" = "light"
  ∧ ∃ f1 w1, session defaultProps ([] ++ [ToggleTheme]) (Some storedBanana)
               = Normal (f1, w1)
      ∧ theme f1 = "light".
Proof.
  edestruct (toggle_other_to_light "banana" defaultProps [] (Some storedBanana))
    as [Htog Hstep]; [discriminate | discriminate |].
  split; [exact Htog |]. apply Hstep; vm_compute; reflexivity.
Defined.

(** A string that came from storage without being a [Theme] is toggled to
    ["light"] as well. *)
Example toggle_invalid_stored :
  themeAfter (mount defaultProps (Some storedBanana)) = Some "banana"
  ∧ themeAfter (session defaultProps [ToggleTheme] (Some storedBanana)) = Some "light".
Proof. split; vm_compute; reflexivity. Qed.

(** ** Transition suppression *)

(** C5, as amended: when the configured class names are tokens the class
    list accepts, a run of the second effect in a browser with
    [disableTransition] on first adds ["no-transitions"], then makes its
    three other calls, then reads the computed style and removes
    ["no-transitions"], which is therefore absent afterwards; with
    [disableTransition] off the run makes the three other calls only, so
    that ["no-transitions"] is added only if the configured class the run
    applies bears that very name, and otherwise is on the root afterwards
    only if it was there before. When a configured class name is refused
    by the class list, the run throws at [classList.remove]: storage is
    untouched, and with [disableTransition] on the marker has been added
    by then and stays on the root. *)
Theorem sync_marker (cfg : FinalConfig) (t e : string) (b : Browser) :
  (validClasses cfg = true →
   ∃ b', syncEffectDom cfg t e b = (Normal tt, b')
     ∧ (if disableTransition cfg then
          calls b' = calls b ++ [ClassListAdd "no-transitions"] ++ coreCalls cfg t e
                       ++ [GetComputedStyle; ClassListRemove ["no-transitions"]]
          ∧ "no-transitions" ∉ classList b'
        else
          (calls b' = calls b ++ coreCalls cfg t e
           ∧ (appliedClass cfg e ≠ "no-transitions" →
              (ClassListAdd "no-transitions" ∉ coreCalls cfg t e)
              ∧ ("no-transitions" ∈ classList b' → "no-transitions" ∈ classList b)))))
  ∧ (validClasses cfg = false →
     ∃ c b',
       firstInvalid [lightClass cfg; darkClass cfg; systemClass cfg] = Some c
       ∧ syncEffectDom cfg t e b = (Throw (tokenError c), b')
       ∧ localStorage b' = localStorage b
       ∧ (if disableTransition cfg then
            calls b' = calls b ++ [ClassListAdd "no-transitions"]
            ∧ "no-transitions" ∈ classList b'
          else b' = b)).
Proof.
  split.
  - intros Hv.
    destruct (syncEffectDom_valid cfg t e b Hv) as (b' & Hrun & _ & Hc & Hcalls).
    exists b'. split; [done |].
    pose proof (syncTokens_marker cfg e (classList b)) as Hm. rewrite <- Hc in Hm.
    unfold syncCalls in Hcalls. destruct (disableTransition cfg).
    + done.
    + rewrite app_nil_r in Hcalls. split; [done |]. intros Hne. split; [| auto].
      unfold coreCalls. rewrite !not_elem_of_cons. split_and!; try done.
      * congruence.
      * apply not_elem_of_nil.
  - intros Hv. destruct (syncEffectDom_invalid cfg t e b Hv) as (c & Hf & Hrun).
    exists c. eexists. split; [done |]. split; [exact Hrun |].
    destruct (disableTransition cfg); cbn; split_and!; try done.
    apply elem_of_tokensAdd. by left.
Qed.

Lemma sync_marker_witness :
  (∃ b', syncEffectDom (finalConfig (withConfig suppressConfig)) "dark" "dark"
           freshBrowser = (Normal tt, b')
     ∧ "no-transitions" ∉ classList b')
  ∧ (∃ b', syncEffectDom (finalConfig defaultProps) "dark" "dark" freshBrowser
           = (Normal tt, b')
       ∧ ClassListAdd "no-transitions" ∉ calls b')
  ∧ (∃ c b', syncEffectDom (finalConfig (withConfig emptyDarkConfig)) "dark" "dark"
               freshBrowser = (Throw (tokenError c), b')
       ∧ "no-transitions" ∈ classList b').
Proof.
  split_and!.
  - destruct (sync_marker (finalConfig (withConfig suppressConfig)) "dark" "dark"
                freshBrowser) as [Hvalid _].
    destruct (Hvalid eq_refl) as (b' & Hrun & Hcalls & Hout). by exists b'.
  - destruct (sync_marker (finalConfig defaultProps) "dark" "dark" freshBrowser)
      as [Hvalid _].
    destruct (Hvalid eq_refl) as (b' & Hrun & Hcalls & Hno).
    exists b'. split; [exact Hrun |]. cbn in Hcalls. rewrite Hcalls.
    apply Hno. vm_compute. discriminate.
  - destruct (sync_marker (finalConfig (withConfig emptyDarkConfig)) "dark" "dark"
                freshBrowser) as [_ Hinvalid].
    destruct (Hinvalid eq_refl) as (c & b' & _ & Hrun & _ & _ & Hin).
    by exists c, b'.
Defined.

(** C5 fails as stated: with suppression off, a light class that is itself
    named ["no-transitions"] is added by the run; and with suppression on,
    a dark class that is the empty string makes [classList.remove] throw
    after the marker was added, so that the run never removes it. *)
Lemma sync_marker_added_when_disabled :
  (disableTransition (finalConfig (withConfig (markerClassConfig false))) = false
   ∧ thrown (syncEffectDom (finalConfig (withConfig (markerClassConfig false)))
               "light" "light" freshBrowser) = None
   ∧ classesLeft (syncEffectDom (finalConfig (withConfig (markerClassConfig false)))
                    "light" "light" freshBrowser) = ["no-transitions"])
  ∧ (disableTransition (finalConfig (withConfig emptyDarkConfig)) = true
     ∧ thrown (syncEffectDom (finalConfig (withConfig emptyDarkConfig))
                 "light" "light" freshBrowser) = Some (DOMException "SyntaxError")
     ∧ classesLeft (syncEffectDom (finalConfig (withConfig emptyDarkConfig))
                      "light" "light" freshBrowser) = ["no-transitions"])
  ∧ "no-transitions" ∉ classList freshBrowser.
Proof. split_and!; try (vm_compute; reflexivity). apply not_elem_of_nil. Qed.

(** ** followSystemTheme off *)

Lemma session_followOff (p : ThemeProviderProps) (es : list Event) (w : World) :
  followOff p → Forall eventFollowOff es →
  ∃ f w', session p es w = Normal (f, w') ∧ Inv f w' ∧ Unsubscribed f.
Proof.
  intros Hp Hes. destruct (mount_spec p w) as (f0 & w0 & Hm & HI0 & _ & _ & _ & Hoff).
  destruct (run_invariant (λ f w', Inv f w' ∧ Unsubscribed f) eventFollowOff)
    with (es := es) (f := f0) (w := w0) as (f & w' & Hr & HI & Hu); [| done | by auto |].
  - intros e f1 w1 He [HI1 Hu1].
    destruct (dispatch_spec e f1 w1 HI1) as (f2 & w2 & Hd & HI2 & _ & _ & _ & _ & Hstep).
    exists f2, w2. split_and!; try done. by destruct (Hstep Hu1 He) as [-> | ?].
  - exists f, w'. split; [| done]. unfold session. by erewrite bind_Normal.
Qed.

(** C6: a provider whose configuration keeps [followSystemTheme] off in every
    render has the system theme ["light"] after any sequence of events; a
    theme of ["system"] is published as effective theme ["light"]; and a
    change of the OS preference leaves the hook cells, and with them the
    published value, as they were. *)
Theorem follow_disabled_frozen (p : ThemeProviderProps) (es : list Event) (w : World) :
  followOff p → Forall eventFollowOff es →
  ∃ f w' v, session p es w = Normal (f, w')
    ∧ systemTheme f = "light"
    ∧ published f = Some v
    ∧ ThemeContextType.systemTheme v = "light"
    ∧ (theme f = "system" → ThemeContextType.effectiveTheme v = "light")
    ∧ ∀ m, ∃ w'', session p (es ++ [MediaChange m]) w = Normal (f, w'').
Proof.
  intros Hp Hes.
  destruct (session_followOff p es w Hp Hes) as (f & w' & Hrun & HI & Hl & Hcl & _).
  destruct (published_value f w' HI) as (v & Hpub & _ & Hs & He & _).
  exists f, w', v. split_and!; try done.
  - congruence.
  - intros Ht. rewrite He, Ht, Hl. reflexivity.
  - intros m. rewrite (session_snoc p es (MediaChange m) w w' f Hrun).
    cbn [dispatch]. unfold mediaChange. rewrite Hcl. destruct w'; eauto.
Qed.

Lemma follow_disabled_frozen_witness :
  ∃ f w' v,
    session (withConfig noFollowConfig) [SetTheme "system"; MediaChange true]
      (Some darkOsBrowser) = Normal (f, w')
    ∧ systemTheme f = "light"
    ∧ published f = Some v
    ∧ ThemeContextType.systemTheme v = "light"
    ∧ (theme f = "system" → ThemeContextType.effectiveTheme v = "light")
    ∧ ∀ m, ∃ w'',
        session (withConfig noFollowConfig)
          ([SetTheme "system"; MediaChange true] ++ [MediaChange m])
          (Some darkOsBrowser) = Normal (f, w'').
Proof.
  apply (follow_disabled_frozen (withConfig noFollowConfig)
           [SetTheme "system"; MediaChange true] (Some darkOsBrowser)).
  - reflexivity.
  - repeat constructor.
Defined.

(** With the default configuration the same flip is followed. *)
Example follow_enabled_flip :
  (ThemeContextType.effectiveTheme <$>
     match session defaultProps [SetTheme "system"] (Some freshBrowser) with
     | Normal (f, _) => published f
     | Throw _ => None
     end) = Some "light"
  ∧ (ThemeContextType.effectiveTheme <$>
       match session defaultProps [SetTheme "system"; MediaChange true]
               (Some freshBrowser) with
       | Normal (f, _) => published f
       | Throw _ => None
       end) = Some "dark".
Proof. split; vm_compute; reflexivity. Qed.

(** ** Persistence *)

(** C7: after a call of [setTheme(m)] on a provider mounted in a browser,
    whatever happened before, storage holds [m] under the configured key:
    the theme itself, which for ["system"] differs from the effective theme
    that is published. *)
Theorem setTheme_persisted (p : ThemeProviderProps) (es : list Event) (m : string)
    (b : Browser) :
  ∃ f b' v, session p (es ++ [SetTheme m]) (Some b) = Normal (f, Some b')
    ∧ theme f = m
    ∧ localStorage b' !! storageKey (cfgOf f) = Some m
    ∧ published f = Some v
    ∧ (m = "system" →
       localStorage b' !! storageKey (cfgOf f)
       ≠ Some (ThemeContextType.effectiveTheme v)).
Proof.
  destruct (session_browser p es b) as (f0 & b0 & Hrun & HI0).
  destruct (dispatch_spec (SetTheme m) f0 (Some b0) HI0)
    as (f & w' & Hd & HI & Hw & Ht & _).
  destruct w' as [b' |]; [| destruct Hw as [_ Hw]; by specialize (Hw eq_refl)].
  destruct (published_value f (Some b') HI) as (v & Hpub & _ & _ & He & _).
  pose proof HI as (_ & _ & _ & Hsys & _ & _ & Hst). cbn in Ht.
  exists f, b', v. rewrite (session_snoc p es (SetTheme m) _ _ _ Hrun).
  rewrite Hst, Ht. split_and!; try done.
  intros ->. rewrite He, Ht. unfold effectiveTheme. case_decide; [| done].
  destruct Hsys as [-> | ->]; discriminate.
Qed.

(** The scenario of the specification: default ["system"], the OS prefers
    dark. *)
Example system_default_dark_os :
  classesAfter (mount {| defaultTheme := Some "system"; config := None |}
                  (Some darkOsBrowser)) = Some ["dark"]
  ∧ match mount {| defaultTheme := Some "system"; config := None |}
            (Some darkOsBrowser) with
    | Normal (f, Some b') =>
        localStorage b' !! "theme" = Some "system"
        ∧ (ThemeContextType.effectiveTheme <$> published f) = Some "dark"
    | _ => False
    end.
Proof. split; [vm_compute; reflexivity |]. vm_compute. split; reflexivity. Qed.

(** ** Without a window *)

(** C8: where [window] is not defined, the initializer returns the default
    theme without reading storage, the first effect neither sets the system
    theme nor registers a listener, the second effect does nothing, and
    mounting the provider and any sequence of events complete normally:
    no access to a browser global is reached. *)
Theorem no_window_safe (p : ThemeProviderProps) (t e : string) (es : list Event) :
  let dflt := match defaultTheme p with Some d => d | None => "light" end in
  initialTheme (finalConfig p) dflt None = Normal (dflt, None)
  ∧ osEffect (finalConfig p) None = Normal ((None, false), None)
  ∧ syncEffect (finalConfig p) t e None = Normal (tt, None)
  ∧ (∃ f, mount p None = Normal (f, None)
       ∧ theme f = dflt ∧ osEffectCleanup f = false)
  ∧ (∃ f, session p es None = Normal (f, None) ∧ osEffectCleanup f = false).
Proof.
  intros dflt. split_and!; try reflexivity.
  - destruct (mount_spec p None) as (f & w' & Hm & HI & Hw & _ & Ht & _).
    destruct Hw as [Hw _]. specialize (Hw eq_refl). subst w'.
    destruct HI as (_ & _ & _ & _ & Hcl & _).
    exists f. split_and!; auto.
  - destruct (session_spec p es None) as (f & w' & Hs & HI & Hw).
    destruct Hw as [Hw _]. specialize (Hw eq_refl). subst w'.
    destruct HI as (_ & _ & _ & _ & Hcl & _). exists f. auto.
Qed.

(** In the same context an unguarded access would throw. *)
Example unguarded_access_throws :
  localStorage_getItem "theme" None = Throw (ReferenceError "localStorage")
  ∧ classList_add "dark" None = Throw (ReferenceError "document").
Proof. split; reflexivity. Qed.

(** ** useTheme *)

(** C9: outside every provider [useTheme] throws the error with the message
    of the source, and the error passes through whatever the caller does
    next; under a mounted provider it returns the context value that the
    provider published, and does not throw. *)
Theorem useTheme_scope :
  (∀ w, useTheme [] w = Throw (Error "useTheme must be used within ThemeProvider"))
  ∧ (∀ (B : Type) (k : ThemeContextType.t → Js B) (w : World),
       (useTheme [] ≫= k) w
       = Throw (Error "useTheme must be used within ThemeProvider"))
  ∧ (∀ (p : ThemeProviderProps) (es : list Event) (w : World)
       (outer : list ThemeContextType.t),
       ∃ f w' v, session p es w = Normal (f, w')
         ∧ published f = Some v
         ∧ useTheme (childScope f outer) w' = Normal (v, w')).
Proof.
  split_and!; try reflexivity.
  intros p es w outer. destruct (session_spec p es w) as (f & w' & Hrun & HI & _).
  destruct (published_value f w' HI) as (v & Hpub & _).
  exists f, w', v. split_and!; try done. unfold childScope. by rewrite Hpub.
Qed.

(** * Further properties of the code *)

(** One render in a browser, in full. *)
Lemma render_exact (p : ThemeProviderProps) (f : Fiber) (b : Browser) :
  idsBounded f →
  ∃ f' b', render p f (Some b) = Normal (f', Some b')
    ∧ rendered p f f'
    ∧ systemTheme f' = (if resubscribes p f && followSystemTheme (finalConfig p)
                        then ofPrefers (prefersDark b) else systemTheme f)
    ∧ osEffectCleanup f' = (if resubscribes p f then followSystemTheme (finalConfig p)
                            else osEffectCleanup f)
    ∧ prefersDark b' = prefersDark b
    ∧ localStorage b' = <[storageKey (finalConfig p) := theme f]> (localStorage b)
    ∧ classList b' = syncTokens (finalConfig p)
                       (effectiveTheme (theme f) (systemTheme f)) (classList b)
    ∧ calls b' = calls b
        ++ (if resubscribes p f && osEffectCleanup f then [RemoveChangeListener] else [])
        ++ (if resubscribes p f && followSystemTheme (finalConfig p)
            then [AddChangeListener] else [])
        ++ syncCalls (finalConfig p) (theme f) (effectiveTheme (theme f) (systemTheme f)).
Proof.
  intros Hids.
  destruct (render_spec p f (Some b) Hids) as (f' & w' & Hr & Hrd & Hsy & _); [done |].
  destruct Hsy as (b' & -> & Hc & Hl). exists f', b'. split; [done |]. split; [done |].
  revert Hr. unfold render.
  destruct Hids as [Hs Hm].
  rewrite useMemo_fresh by (intros; eapply Nat.lt_succ_r, Hm; eauto).
  case_decide as Hsync.
  { apply Hs in Hsync. lia. }
  unfold resubscribes.
  set (b1 := if osEffectCleanup f then logCall RemoveChangeListener b else b).
  destruct (osEffect_calls (finalConfig p) b1) as (b2 & Hos & Hc2 & Hl2 & Hp2 & Hk2).
  destruct (syncEffect_calls (finalConfig p) (theme f)
              (effectiveTheme (theme f) (systemTheme f))
              (if decide (osEffectDeps f = Some (followSystemTheme (finalConfig p)))
               then b else b2)) as (b3 & Hsy & Hc3 & Hl3 & Hp3 & Hk3).
  case_decide as Hdeps.
  - rewrite bool_decide_eq_false_2 by tauto. cbn [andb].
    erewrite bind_Normal by reflexivity. cbn beta iota.
    erewrite bind_Normal by exact Hsy.
    intros [= <- <-]. cbn. split_and!; try done.
  - rewrite bool_decide_eq_true_2 by done. cbn [andb].
    erewrite bind_Normal; cycle 1.
    { erewrite bind_Normal with (w' := Some b1); [exact Hos |].
      subst b1. by destruct (osEffectCleanup f). }
    assert (Hb1 : prefersDark b1 = prefersDark b
                  ∧ calls b1 = calls b ++ (if osEffectCleanup f
                                           then [RemoveChangeListener] else [])).
    { subst b1. destruct (osEffectCleanup f); cbn; by rewrite ?app_nil_r. }
    destruct Hb1 as [Hp1 Hk1].
    destruct (followSystemTheme (finalConfig p)) eqn:Hfollow; cbn beta iota;
      (erewrite bind_Normal by exact Hsy); intros [= <- <-]; cbn;
      rewrite Hp3, Hp2, Hp1, Hk3, Hk2, Hk1, <- ?app_assoc; split_and!; try done.
Qed.

Lemma resubscribes_rendered (p : ThemeProviderProps) (f f1 : Fiber) :
  rendered p f f1 → resubscribes p f1 = false.
Proof.
  intros (_ & _ & _ & _ & _ & Hd & _). unfold resubscribes.
  by rewrite bool_decide_eq_false_2 by (rewrite Hd; tauto).
Qed.

(** A render and the render it may schedule, in full. *)
Lemma renderAndCommit_exact (p : ThemeProviderProps) (f : Fiber) (b : Browser) :
  idsBounded f →
  (systemTheme f = "light" ∨ systemTheme f = "dark") →
  ∃ f' b', renderAndCommit p f (Some b) = Normal (f', Some b')
    ∧ Inv f' (Some b') ∧ Effected p f b f' b'.
Proof.
  intros Hids Hsys.
  destruct (renderAndCommit_spec p f (Some b) Hids) as (f' & w' & Hrc & HI & Hw & _);
    [done | done |].
  destruct w' as [b' |]; [| destruct Hw as [_ Hw]; by specialize (Hw eq_refl)].
  exists f', b'. split; [done |]. split; [done |].
  revert Hrc. unfold renderAndCommit.
  destruct (render_exact p f b Hids)
    as (f1 & b1 & Hr1 & Hrd1 & Hs1 & Hcl1 & Hp1 & Hl1 & Hc1 & Hk1).
  erewrite bind_Normal by exact Hr1.
  pose proof Hrd1 as (Hpr1 & Ht1 & _ & Hids1 & _).
  case_decide as Hst.
  - intros [= <- <-]. unfold Effected. cbv zeta. rewrite decide_True by done.
    rewrite decide_True by done.
    rewrite app_nil_r. split_and!; try done. by rewrite Hst.
  - destruct (render_exact p f1 b1 Hids1)
      as (f2 & b2 & Hr2 & Hrd2 & Hs2 & Hcl2 & Hp2 & Hl2 & Hc2 & Hk2).
    rewrite (resubscribes_rendered p f f1 Hrd1) in Hs2, Hcl2, Hk2. cbn in Hs2, Hcl2, Hk2.
    pose proof Hrd2 as (Hpr2 & Ht2 & _).
    rewrite Hr2. intros [= <- <-]. unfold Effected. cbv zeta.
    rewrite !decide_False by (by rewrite Hs2).
    rewrite Hc2, Hc1, Hl2, Hl1, Hk2, Hk1, Hp2, Hp1, Ht2, Ht1, Hcl2, Hs2, insert_insert_eq,
      <- ?app_assoc.
    split_and!; try done.
Qed.

Lemma Inv_cells (f : Fiber) (w : World) :
  Inv f w →
  idsBounded f ∧ (systemTheme f = "light" ∨ systemTheme f = "dark")
  ∧ osEffectDeps f = Some (followSystemTheme (cfgOf f)).
Proof. intros (? & _ & ? & ? & _). done. Qed.

(** An event in a browser, in full. *)
Lemma dispatch_exact (e : Event) (f : Fiber) (b : Browser) :
  Inv f (Some b) →
  ∃ f' b', dispatch e f (Some b) = Normal (f', Some b')
    ∧ Inv f' (Some b') ∧ Moved e f b f' b'.
Proof.
  intros HI. destruct (Inv_cells f _ HI) as (Hids & Hsys & Hdeps).
  destruct e as [t | | m | p]; cbn [dispatch Moved].
  - unfold setThemeState. case_decide as Ht.
    + exists f, b. split_and!; try done. by left.
    + destruct (renderAndCommit_exact (props f) (withTheme t f) b)
        as (f' & b' & Hr & HI' & Heff); [done | done |].
      exists f', b'. split_and!; try done. by right.
  - unfold setThemeState. case_decide as Ht.
    { exfalso. revert Ht. unfold toggleTheme. repeat case_decide; congruence. }
    destruct (renderAndCommit_exact (props f) (withTheme (toggleTheme (theme f)) f) b)
      as (f' & b' & Hr & HI' & Heff); [done | done |].
    by exists f', b'.
  - unfold mediaChange. destruct (osEffectCleanup f) eqn:Hcl.
    + unfold setSystemTheme. change (if m then "dark" else "light") with (ofPrefers m).
      case_decide as Hs.
      * exists f, (setPrefersDark m b). split_and!; try done.
        { by apply Inv_setPrefersDark. }
        left. auto.
      * destruct (renderAndCommit_exact (props f) (withSystemTheme (ofPrefers m) f)
                    (setPrefersDark m b)) as (f' & b' & Hr & HI' & Heff); [done | |].
        { destruct m; cbn; auto. }
        exists f', b'. split_and!; try done. right. auto.
    + exists f, (setPrefersDark m b). split_and!; try done.
      { by apply Inv_setPrefersDark. }
      left. auto.
  - destruct (renderAndCommit_exact p f b) as (f' & b' & Hr & HI' & Heff); [done | done |].
    by exists f', b'.
Qed.

Lemma mount_exact (p : ThemeProviderProps) (b : Browser) :
  ∃ f b', mount p (Some b) = Normal (f, Some b')
    ∧ Inv f (Some b')
    ∧ Effected p
        (initialCells p (orDefault (localStorage b !! storageKey (finalConfig p))
                           (default "light" (defaultTheme p)))) b f b'.
Proof.
  unfold mount. erewrite bind_Normal by reflexivity.
  apply renderAndCommit_exact; [split; intros; discriminate | by left].
Qed.

Lemma run_browser (I : Fiber → Browser → Prop) (E : Event → Prop) :
  (∀ e f b f' b', E e → Inv f (Some b) → I f b → Inv f' (Some b') →
     Moved e f b f' b' → I f' b') →
  ∀ es f b, Forall E es → Inv f (Some b) → I f b →
    ∃ f' b', run es f (Some b) = Normal (f', Some b') ∧ Inv f' (Some b') ∧ I f' b'.
Proof.
  intros Hstep es. induction es as [| e es IH]; intros f b HE HI HJ.
  - by exists f, b.
  - inversion_clear HE as [| ? ? He Hes].
    destruct (dispatch_exact e f b HI) as (f1 & b1 & Hd & HI1 & Hm).
    destruct (IH f1 b1 Hes HI1 (Hstep e f b f1 b1 He HI HJ HI1 Hm)) as (f2 & b2 & Hr & HI2 & HJ2).
    exists f2, b2. split; [| done]. cbn [run]. by erewrite bind_Normal.
Qed.

Lemma session_browser_inv (I : Fiber → Browser → Prop) (E : Event → Prop)
    (p : ThemeProviderProps) (es : list Event) (b : Browser) :
  (∀ f b', Inv f (Some b') →
     Effected p (initialCells p (orDefault (localStorage b !! storageKey (finalConfig p))
                                   (default "light" (defaultTheme p)))) b f b' →
     I f b') →
  (∀ e f b f' b', E e → Inv f (Some b) → I f b → Inv f' (Some b') →
     Moved e f b f' b' → I f' b') →
  Forall E es →
  ∃ f b', session p es (Some b) = Normal (f, Some b') ∧ Inv f (Some b') ∧ I f b'.
Proof.
  intros Hinit Hstep Hes.
  destruct (mount_exact p b) as (f0 & b0 & Hm & HI0 & Heff).
  destruct (run_browser I E Hstep es f0 b0 Hes HI0 (Hinit f0 b0 HI0 Heff))
    as (f & b' & Hr & HI & HJ).
  exists f, b'. split; [| done]. unfold session. by erewrite bind_Normal.
Qed.

(** ** Further properties: token lists *)

Lemma tokensAdd_fresh (c : string) (l : list string) :
  c ∉ l → tokensAdd c l = l ++ [c].
Proof. intros H. unfold tokensAdd. by rewrite decide_False. Qed.

Lemma tokensRemove_app (cs l1 l2 : list string) :
  tokensRemove cs (l1 ++ l2) = tokensRemove cs l1 ++ tokensRemove cs l2.
Proof. apply filter_app. Qed.

Lemma tokensRemove_id (cs l : list string) :
  (∀ x, x ∈ l → x ∉ cs) → tokensRemove cs l = l.
Proof.
  induction l as [| a l IH]; intros H; [done |]. unfold tokensRemove in *.
  rewrite filter_cons_True by (apply H; by left).
  rewrite IH; [done |]. intros x Hx. apply H. by right.
Qed.

Lemma tokensRemove_comm (cs ds l : list string) :
  tokensRemove cs (tokensRemove ds l) = tokensRemove ds (tokensRemove cs l).
Proof.
  unfold tokensRemove. rewrite !list_filter_filter. apply list_filter_iff. tauto.
Qed.

Lemma tokensRemove_idem (cs l : list string) :
  tokensRemove cs (tokensRemove cs l) = tokensRemove cs l.
Proof.
  apply tokensRemove_id. intros x Hx. apply elem_of_tokensRemove in Hx. tauto.
Qed.

Lemma tokensRemove_one (cs : list string) (c : string) :
  tokensRemove cs [c] = if decide (c ∈ cs) then [] else [c].
Proof.
  unfold tokensRemove. case_decide.
  - by rewrite filter_cons_False by tauto.
  - by rewrite filter_cons_True.
Qed.

Lemma appliedClass_configured (cfg : FinalConfig) (e : string) :
  appliedClass cfg e ∈ [lightClass cfg; darkClass cfg; systemClass cfg].
Proof. unfold appliedClass. repeat case_decide; by repeat constructor. Qed.

Lemma syncTokens_idem (cfg : FinalConfig) (e : string) (l : list string) :
  syncTokens cfg e (syncTokens cfg e l) = syncTokens cfg e l.
Proof.
  pose proof (appliedClass_configured cfg e) as Hc.
  set (c := appliedClass cfg e) in *.
  set (cs := [lightClass cfg; darkClass cfg; systemClass cfg]) in *.
  assert (Hout : ∀ l0, c ∉ tokensRemove cs l0).
  { intros l0 H. apply elem_of_tokensRemove in H. tauto. }
  unfold syncTokens. fold c cs. destruct (disableTransition cfg); cbn [id].
  - set (m := tokensRemove cs (tokensAdd "no-transitions" l)).
    set (g := tokensRemove ["no-transitions"] m).
    assert (Hfl : tokensRemove ["no-transitions"] (tokensAdd c m)
                  = g ++ tokensRemove ["no-transitions"] [c]).
    { rewrite tokensAdd_fresh by apply Hout. by rewrite tokensRemove_app. }
    rewrite Hfl.
    assert (Hnt : "no-transitions" ∉ g ++ tokensRemove ["no-transitions"] [c]).
    { rewrite elem_of_app. subst g.
      intros [H | H]; apply elem_of_tokensRemove in H as [_ H]; apply H; by left. }
    rewrite (tokensAdd_fresh _ _ Hnt).
    rewrite !tokensRemove_app.
    assert (Hg : tokensRemove cs g = g).
    { subst g m. by rewrite tokensRemove_comm, tokensRemove_idem. }
    assert (Hcc : tokensRemove cs (tokensRemove ["no-transitions"] [c]) = []).
    { rewrite tokensRemove_comm, tokensRemove_one, decide_True by done. done. }
    rewrite Hg, Hcc, app_nil_r.
    rewrite tokensAdd_fresh; cycle 1.
    { rewrite elem_of_app. intros [H | H]; [| by apply Hout in H].
      subst g. apply elem_of_tokensRemove in H as [H _]. by apply Hout in H. }
    rewrite !tokensRemove_app.
    assert (Hgg : tokensRemove ["no-transitions"] g = g) by apply tokensRemove_idem.
    assert (Hn : tokensRemove ["no-transitions"] (tokensRemove cs ["no-transitions"]) = []).
    { rewrite tokensRemove_comm, (tokensRemove_one ["no-transitions"]), decide_True;
        [done | by left]. }
    rewrite Hgg, Hn. by rewrite app_nil_r.
  - rewrite (tokensAdd_fresh c (tokensRemove cs l)) by apply Hout.
    rewrite tokensRemove_app, tokensRemove_idem, tokensRemove_one.
    rewrite (decide_True _ _ Hc), app_nil_r.
    by rewrite (tokensAdd_fresh c (tokensRemove cs l)) by apply Hout.
Qed.

Lemma syncTokens_frame (cfg : FinalConfig) (e c : string) (l : list string) :
  c ∉ handledClasses cfg → (c ∈ syncTokens cfg e l ↔ c ∈ l).
Proof.
  unfold handledClasses. intros Hc. repeat rewrite not_elem_of_cons in Hc.
  destruct Hc as (Hl & Hd & Hs & Hn & _).
  assert (Ha : c ≠ appliedClass cfg e) by (unfold appliedClass; by repeat case_decide).
  assert (Hcs : c ∉ [lightClass cfg; darkClass cfg; systemClass cfg]).
  { repeat rewrite not_elem_of_cons. split_and!; try done. apply not_elem_of_nil. }
  unfold syncTokens. destruct (disableTransition cfg); cbn [id];
    rewrite ?elem_of_tokensRemove, elem_of_tokensAdd, elem_of_tokensRemove,
      ?elem_of_tokensAdd, ?list_elem_of_singleton; tauto.
Qed.

(** ** Further properties: the call log *)

Lemma listenerAdds_app (l1 l2 : list DomCall) :
  listenerAdds (l1 ++ l2) = listenerAdds l1 + listenerAdds l2.
Proof. induction l1 as [| [] l1 IH]; cbn; lia. Qed.

Lemma listenerRemoves_app (l1 l2 : list DomCall) :
  listenerRemoves (l1 ++ l2) = listenerRemoves l1 + listenerRemoves l2.
Proof. induction l1 as [| [] l1 IH]; cbn; lia. Qed.

Lemma syncCalls_listeners (cfg : FinalConfig) (t e : string) :
  listenerAdds (syncCalls cfg t e) = 0 ∧ listenerRemoves (syncCalls cfg t e) = 0.
Proof. unfold syncCalls, coreCalls. by destruct (disableTransition cfg). Qed.

Lemma Effected_held (p : ThemeProviderProps) (f : Fiber) (b : Browser)
    (f' : Fiber) (b' : Browser) (before : list DomCall) :
  Effected p f b f' b' →
  (osEffectDeps f = None ∧ osEffectCleanup f = false)
  ∨ osEffectDeps f = Some (osEffectCleanup f) →
  listenersHeld before (calls b) (if osEffectCleanup f then 1 else 0) →
  osEffectCleanup f' = followSystemTheme (finalConfig p)
  ∧ listenersHeld before (calls b') (if followSystemTheme (finalConfig p) then 1 else 0).
Proof.
  intros (_ & _ & _ & Hcl & _ & _ & _ & Hk) Hdeps Hheld. unfold listenersHeld in *.
  rewrite Hk, Hcl, !listenerAdds_app, !listenerRemoves_app. clear Hk Hcl.
  destruct (syncCalls_listeners (finalConfig p) (theme f)
              (effectiveTheme (theme f) (systemTheme f))) as [-> ->].
  assert (Hlast : ∀ l, (l = [] ∨ ∃ e, l = syncCalls (finalConfig p) (theme f) e) →
                       listenerAdds l = 0 ∧ listenerRemoves l = 0).
  { intros l [-> | [e ->]]; [done | apply syncCalls_listeners]. }
  destruct (Hlast (if decide (systemTheme f' = systemTheme f) then []
                   else syncCalls (finalConfig p) (theme f)
                          (effectiveTheme (theme f) (systemTheme f')))) as [-> ->].
  { case_decide; eauto. }
  unfold resubscribes.
  destruct Hdeps as [[Hd Hc] | Hd]; rewrite Hd; [rewrite Hc in * |].
  - rewrite bool_decide_eq_true_2 by done.
    destruct (followSystemTheme (finalConfig p)); cbn; split; try done; lia.
  - destruct (osEffectCleanup f), (followSystemTheme (finalConfig p)); cbn;
      first [rewrite bool_decide_eq_true_2 by congruence
            | rewrite bool_decide_eq_false_2 by (intros H; by apply H)];
      cbn; split; try done; lia.
Qed.

Lemma session_subscribed (p : ThemeProviderProps) (es : list Event) (b : Browser) :
  ∃ f b', session p es (Some b) = Normal (f, Some b') ∧ Inv f (Some b')
    ∧ osEffectCleanup f = followSystemTheme (cfgOf f)
    ∧ listenersHeld (calls b) (calls b') (if followSystemTheme (cfgOf f) then 1 else 0).
Proof.
  destruct (session_browser_inv
              (λ f b', osEffectCleanup f = followSystemTheme (cfgOf f)
                       ∧ listenersHeld (calls b) (calls b')
                           (if followSystemTheme (cfgOf f) then 1 else 0))
              (λ _, True) p es b) as (f & b' & Hrun & HI & Hc & Hh).
  - intros f b' _ Heff. pose proof Heff as (Hp & _). unfold cfgOf. rewrite Hp.
    eapply Effected_held; [exact Heff | by left |]. unfold listenersHeld. cbn. lia.
  - intros e f b1 f' b' _ HI [Hc Hh] HI' Hm.
    destruct (Inv_cells f _ HI) as (_ & _ & Hdeps). rewrite <- Hc in Hdeps, Hh.
    assert (Hgo : ∀ q f0, osEffectDeps f0 = osEffectDeps f →
                    osEffectCleanup f0 = osEffectCleanup f →
                    ∀ b0, calls b0 = calls b1 →
                    Effected q f0 b0 f' b' →
                    osEffectCleanup f' = followSystemTheme (cfgOf f')
                    ∧ listenersHeld (calls b) (calls b')
                        (if followSystemTheme (cfgOf f') then 1 else 0)).
    { intros q f0 Hd0 Hc0 b0 Hk0 Heff. pose proof Heff as (Hp & _).
      unfold cfgOf. rewrite Hp.
      eapply Effected_held; [exact Heff | right; congruence |].
      by rewrite Hc0, Hk0. }
    destruct e as [t | | m | q]; cbn [Moved] in Hm.
    + destruct Hm as [(_ & -> & ->) | [_ Heff]]; [by rewrite <- Hc |].
      exact (Hgo _ (withTheme t f) eq_refl eq_refl b1 eq_refl Heff).
    + exact (Hgo _ (withTheme (toggleTheme (theme f)) f) eq_refl eq_refl b1 eq_refl Hm).
    + destruct Hm as [(_ & -> & ->) | (_ & _ & Heff)]; [by rewrite <- Hc |].
      exact (Hgo _ (withSystemTheme (ofPrefers m) f) eq_refl eq_refl
               (setPrefersDark m b1) eq_refl Heff).
    + exact (Hgo _ f eq_refl eq_refl b1 eq_refl Hm).
  - by apply Forall_true.
  - by exists f, b'.
Qed.

(** ** Further properties: what a session leaves behind *)

Lemma run_lastProps (es : list Event) (f0 : Fiber) (w0 : World) (f : Fiber) (w : World) :
  Inv f0 w0 → run es f0 w0 = Normal (f, w) → props f = lastProps (props f0) es.
Proof.
  revert f0 w0. induction es as [| e es IH]; intros f0 w0 HI Hrun.
  - by injection Hrun as <- <-.
  - destruct (dispatch_spec e f0 w0 HI) as (f1 & w1 & Hd & HI1 & _ & _ & Hp & _).
    cbn [run] in Hrun. erewrite bind_Normal in Hrun by exact Hd.
    rewrite (IH f1 w1 HI1 Hrun), Hp. unfold lastProps. cbn [foldl]. by destruct e.
Qed.

Lemma session_lastProps (p : ThemeProviderProps) (es : list Event) (w w' : World)
    (f : Fiber) :
  session p es w = Normal (f, w') → props f = lastProps p es.
Proof.
  destruct (mount_spec p w) as (f0 & w0 & Hm & HI0 & _ & Hp & _).
  unfold session. erewrite bind_Normal by exact Hm. intros Hrun.
  rewrite <- Hp. by eapply run_lastProps.
Qed.

Lemma Moved_prefers (e : Event) (f : Fiber) (b : Browser) (f' : Fiber) (b' : Browser) :
  Moved e f b f' b' →
  prefersDark b' = match e with MediaChange m => m | _ => prefersDark b end.
Proof.
  destruct e as [t | | m | q]; cbn [Moved].
  - intros [(_ & _ & ->) | (_ & _ & _ & _ & _ & H & _)]; done.
  - by intros (_ & _ & _ & _ & H & _).
  - intros [(_ & _ & ->) | (_ & _ & _ & _ & _ & _ & H & _)]; done.
  - by intros (_ & _ & _ & _ & H & _).
Qed.

Lemma run_lastPreference (es : list Event) (f0 : Fiber) (b0 : Browser)
    (f : Fiber) (b : Browser) :
  Inv f0 (Some b0) → run es f0 (Some b0) = Normal (f, Some b) →
  prefersDark b = lastPreference (prefersDark b0) es.
Proof.
  revert f0 b0. induction es as [| e es IH]; intros f0 b0 HI Hrun.
  - by injection Hrun as <- <-.
  - destruct (dispatch_exact e f0 b0 HI) as (f1 & b1 & Hd & HI1 & Hm).
    cbn [run] in Hrun. erewrite bind_Normal in Hrun by exact Hd.
    rewrite (IH f1 b1 HI1 Hrun), (Moved_prefers _ _ _ _ _ Hm).
    unfold lastPreference. cbn [foldl]. by destruct e.
Qed.

Lemma session_lastPreference (p : ThemeProviderProps) (es : list Event)
    (b b' : Browser) (f : Fiber) :
  session p es (Some b) = Normal (f, Some b') →
  prefersDark b' = lastPreference (prefersDark b) es.
Proof.
  destruct (mount_exact p b) as (f0 & b0 & Hm & HI0 & Heff).
  unfold session. erewrite bind_Normal by exact Hm. intros Hrun.
  rewrite (run_lastPreference es f0 b0 f b' HI0 Hrun).
  by destruct Heff as (_ & _ & _ & _ & -> & _).
Qed.

Lemma session_result (p : ThemeProviderProps) (es : list Event) (b b' : Browser)
    (f : Fiber) :
  session p es (Some b) = Normal (f, Some b') → Inv f (Some b').
Proof.
  destruct (session_browser p es b) as (f0 & b0 & Hrun & HI). rewrite Hrun.
  by intros [= <- <-].
Qed.

(** X1: a theme chosen in one session is the theme the next session starts
    with, when the next provider reads the same storage key: what the second
    effect wrote is what the initializer reads. The one exception is the
    empty string, which the initializer takes for nothing stored. *)
Theorem theme_survives_reload (p p2 : ThemeProviderProps) (es : list Event)
    (b b1 : Browser) (f : Fiber) :
  session p es (Some b) = Normal (f, Some b1) →
  storageKey (finalConfig p2) = storageKey (cfgOf f) →
  ∃ f2 w2, mount p2 (Some b1) = Normal (f2, w2)
    ∧ theme f2 = if decide (theme f = EmptyString)
                 then default "light" (defaultTheme p2) else theme f.
Proof.
  intros Hrun Hkey. pose proof (session_result _ _ _ _ _ Hrun) as HI.
  destruct HI as (_ & _ & _ & _ & _ & _ & Hst).
  destruct (mount_spec p2 (Some b1)) as (f2 & w2 & Hm & _ & _ & _ & Ht & _).
  exists f2, w2. split; [done |]. by rewrite Ht, Hkey, Hst.
Qed.

Lemma theme_survives_reload_witness :
  ∃ f b1,
    session (withConfig customKeyConfig) [ToggleTheme] (Some freshBrowser)
    = Normal (f, Some b1)
    ∧ ∃ f2 w2, mount (withConfig customKeyConfig) (Some b1) = Normal (f2, w2)
        ∧ theme f2 = "dark".
Proof.
  eexists _, _. split; [vm_compute; reflexivity |].
  edestruct (theme_survives_reload (withConfig customKeyConfig)
               (withConfig customKeyConfig) [ToggleTheme] freshBrowser)
    as (f2 & w2 & Hm & Ht); [vm_compute; reflexivity | reflexivity |].
  exists f2, w2. split; [exact Hm |]. vm_compute in Ht. exact Ht.
Defined.

Lemma Effected_frame (c k : string) (q : ThemeProviderProps) (f0 : Fiber)
    (b0 : Browser) (f' : Fiber) (b' : Browser) :
  Effected q f0 b0 f' b' → foreignTo c k q →
  (c ∈ classList b' ↔ c ∈ classList b0)
  ∧ localStorage b' !! k = localStorage b0 !! k.
Proof.
  intros (_ & _ & _ & _ & _ & Hl & Hc & _) [Hcls Hkey]. rewrite Hl, Hc. split.
  - case_decide; by rewrite !syncTokens_frame.
  - by rewrite lookup_insert_ne.
Qed.

(** X2: a class on the root that is none of the three configured names nor
    ["no-transitions"], and a storage entry under another key than the
    configured one, are left as they were by everything a provider does. *)
Theorem foreign_state_untouched (c k : string) (p : ThemeProviderProps)
    (es : list Event) (b : Browser) :
  foreignTo c k p → Forall (eventForeignTo c k) es →
  ∃ f b', session p es (Some b) = Normal (f, Some b')
    ∧ (c ∈ classList b' ↔ c ∈ classList b)
    ∧ localStorage b' !! k = localStorage b !! k.
Proof.
  intros Hp Hes.
  destruct (session_browser_inv
              (λ f b', foreignTo c k (props f)
                       ∧ (c ∈ classList b' ↔ c ∈ classList b)
                       ∧ localStorage b' !! k = localStorage b !! k)
              (eventForeignTo c k) p es b) as (f & b' & Hrun & _ & _ & Hc & Hk);
    [| | done | by exists f, b'].
  - intros f b' _ Heff. pose proof Heff as (-> & _).
    split; [done |]. by eapply Effected_frame.
  - intros e f b1 f' b' He HI (Hf & Hc & Hk) _ Hm.
    assert (Hgo : ∀ q f0 b0, classList b0 = classList b1 →
                    localStorage b0 = localStorage b1 → foreignTo c k q →
                    Effected q f0 b0 f' b' →
                    foreignTo c k (props f')
                    ∧ (c ∈ classList b' ↔ c ∈ classList b)
                    ∧ localStorage b' !! k = localStorage b !! k).
    { intros q f0 b0 Hc0 Hl0 Hq Heff. pose proof Heff as (-> & _).
      destruct (Effected_frame c k q f0 b0 f' b' Heff Hq) as [Hc' Hk'].
      rewrite Hc', Hk', Hc0, Hl0. done. }
    destruct e as [t | | m | q]; cbn [Moved eventForeignTo] in Hm, He.
    + destruct Hm as [(_ & -> & ->) | [_ Heff]]; [done |].
      exact (Hgo _ _ b1 eq_refl eq_refl Hf Heff).
    + exact (Hgo _ _ b1 eq_refl eq_refl Hf Hm).
    + destruct Hm as [(_ & -> & ->) | (_ & _ & Heff)]; [done |].
      exact (Hgo _ _ (setPrefersDark m b1) eq_refl eq_refl Hf Heff).
    + exact (Hgo _ _ b1 eq_refl eq_refl He Hm).
Qed.

Lemma foreign_state_untouched_witness :
  ∃ f b',
    session defaultProps [ToggleTheme; MediaChange true; SetTheme "system"]
      (Some {| classList := ["app"; "light"]; localStorage := {["lang" := "en"]};
               prefersDark := false; calls := [] |}) = Normal (f, Some b')
    ∧ ("app" ∈ classList b' ↔ "app" ∈ ["app"; "light"])
    ∧ localStorage b' !! "lang" = ({["lang" := "en"]} : gmap string string) !! "lang".
Proof.
  apply (foreign_state_untouched "app" "lang" defaultProps
           [ToggleTheme; MediaChange true; SetTheme "system"]).
  - split; [| discriminate]. apply (bool_decide_unpack _). by vm_compute.
  - repeat constructor.
Defined.

(** X3: rendering the provider again with the props it already has changes
    neither the class list of the root, nor storage, nor the theme, the
    system theme and the subscription: the second effect, which runs after
    every render, reproduces what it left. *)
Theorem rerender_same_props_idle (p : ThemeProviderProps) (es : list Event)
    (b b1 : Browser) (f : Fiber) :
  session p es (Some b) = Normal (f, Some b1) →
  ∃ f' b2, session p (es ++ [Rerender (props f)]) (Some b) = Normal (f', Some b2)
    ∧ classList b2 = classList b1
    ∧ localStorage b2 = localStorage b1
    ∧ prefersDark b2 = prefersDark b1
    ∧ theme f' = theme f ∧ systemTheme f' = systemTheme f
    ∧ osEffectCleanup f' = osEffectCleanup f.
Proof.
  intros Hrun. pose proof (session_result _ _ _ _ _ Hrun) as HI.
  destruct (dispatch_exact (Rerender (props f)) f b1 HI) as (f' & b2 & Hd & _ & Hm).
  exists f', b2. rewrite (session_snoc _ _ _ _ _ _ Hrun). split; [done |].
  cbn [Moved] in Hm. destruct Hm as (_ & Ht & Hs & Hc & Hp & Hl & Hcl & _).
  destruct (Inv_cells _ _ HI) as (_ & _ & Hdeps).
  destruct HI as (_ & _ & _ & _ & _ & [l0 Hl0] & Hst).
  assert (Hre : resubscribes (props f) f = false).
  { unfold resubscribes. apply bool_decide_eq_false_2. intros H. by apply H. }
  rewrite Hre in Hs, Hc. cbn in Hs, Hc. rewrite Hs in Hcl.
  rewrite decide_True in Hcl by done.
  split_and!; try done.
  - rewrite Hcl, Hl0. apply syncTokens_idem.
  - rewrite Hl. by apply insert_id.
Qed.

Lemma rerender_same_props_idle_witness :
  ∃ f b1,
    session (withConfig suppressConfig) [SetTheme "dark"] (Some darkOsBrowser)
    = Normal (f, Some b1)
    ∧ ∃ f' b2,
        session (withConfig suppressConfig) ([SetTheme "dark"] ++ [Rerender (props f)])
          (Some darkOsBrowser) = Normal (f', Some b2)
        ∧ classList b2 = classList b1 ∧ localStorage b2 = localStorage b1.
Proof.
  eexists _, _. split; [vm_compute; reflexivity |].
  edestruct (rerender_same_props_idle (withConfig suppressConfig) [SetTheme "dark"]
               darkOsBrowser) as (f' & b2 & Hrun & Hc & Hl & _);
    [vm_compute; reflexivity |].
  exists f', b2. split_and!; [exact Hrun | exact Hc | exact Hl].
Defined.



(** ** Further properties: the OS preference *)

Lemma Effected_follow (q : ThemeProviderProps) (f0 : Fiber) (b0 : Browser)
    (f' : Fiber) (b' : Browser) :
  Effected q f0 b0 f' b' → followOn q →
  osEffectDeps f0 = None
  ∨ (osEffectDeps f0 = Some true ∧ osEffectCleanup f0 = true
     ∧ systemTheme f0 = ofPrefers (prefersDark b0)) →
  followOn (props f') ∧ osEffectCleanup f' = true
  ∧ systemTheme f' = ofPrefers (prefersDark b').
Proof.
  intros (-> & _ & Hs & Hc & Hp & _) Hq Hdeps. unfold followOn in Hq.
  rewrite Hs, Hc, Hp, Hq. unfold resubscribes. rewrite Hq.
  destruct Hdeps as [-> | (-> & Hc0 & Hs0)].
  - by rewrite bool_decide_eq_true_2.
  - by rewrite bool_decide_eq_false_2 by (intros H; by apply H).
Qed.

(** X5: while the configuration keeps [followSystemTheme] on, the system
    theme of a provider in a browser is the current OS preference after
    every event: the preference found at mount, or that of the last change.
    A theme of ["system"] is then published as that preference. *)
Theorem follow_enabled_mirrors_os (p : ThemeProviderProps) (es : list Event)
    (b : Browser) :
  followOn p → Forall eventFollowOn es →
  ∃ f b' v, session p es (Some b) = Normal (f, Some b')
    ∧ systemTheme f = ofPrefers (lastPreference (prefersDark b) es)
    ∧ published f = Some v
    ∧ ThemeContextType.systemTheme v = ofPrefers (lastPreference (prefersDark b) es)
    ∧ (theme f = "system" →
       ThemeContextType.effectiveTheme v
       = ofPrefers (lastPreference (prefersDark b) es)).
Proof.
  intros Hp Hes.
  destruct (session_browser_inv
              (λ f b', followOn (props f) ∧ osEffectCleanup f = true
                       ∧ systemTheme f = ofPrefers (prefersDark b'))
              eventFollowOn p es b) as (f & b' & Hrun & HI & _ & _ & Hs); [| | done |].
  - intros f b' _ Heff. eapply Effected_follow; [exact Heff | done | by left].
  - intros e f b1 f' b' He HI (Hf & Hc & Hs) _ Hm.
    destruct (Inv_cells _ _ HI) as (_ & _ & Hdeps).
    unfold followOn, cfgOf in *. rewrite Hf in Hdeps.
    destruct e as [t | | m | q]; cbn [Moved eventFollowOn] in Hm, He.
    + destruct Hm as [(_ & -> & ->) | [_ Heff]]; [done |].
      eapply Effected_follow; [exact Heff | done | right; done].
    + eapply Effected_follow; [exact Hm | done | right; done].
    + destruct Hm as [([Hno | Hsame] & -> & ->) | (_ & _ & Heff)].
      * congruence.
      * done.
      * eapply Effected_follow; [exact Heff | done | right; done].
    + eapply Effected_follow; [exact Hm | done | right; done].
  - rewrite (session_lastPreference _ _ _ _ _ Hrun) in Hs.
    destruct (published_value f _ HI) as (v & Hpub & _ & Hsv & He & _).
    exists f, b', v. split_and!; try done; [congruence |].
    intros Ht. rewrite He, Ht, Hs. reflexivity.
Qed.

Lemma follow_enabled_mirrors_os_witness :
  ∃ f b' v,
    session defaultProps [SetTheme "system"; MediaChange true] (Some freshBrowser)
    = Normal (f, Some b')
    ∧ systemTheme f = "dark"
    ∧ published f = Some v
    ∧ ThemeContextType.systemTheme v = "dark"
    ∧ (theme f = "system" → ThemeContextType.effectiveTheme v = "dark").
Proof.
  apply (follow_enabled_mirrors_os defaultProps [SetTheme "system"; MediaChange true]
           freshBrowser).
  - reflexivity.
  - repeat constructor.
Defined.

(** X6: in a browser the provider holds its listener on the media query
    exactly while the configuration of its last render has
    [followSystemTheme] on: over a whole session the registrations exceed
    the removals by one then and by none otherwise, whatever the flag did
    in between, and unmounting brings the two level. *)
Theorem listener_balance (p : ThemeProviderProps) (es : list Event) (b : Browser) :
  ∃ f b' b'', session p es (Some b) = Normal (f, Some b')
    ∧ osEffectCleanup f = followSystemTheme (finalConfig (lastProps p es))
    ∧ listenersHeld (calls b) (calls b')
        (if followSystemTheme (finalConfig (lastProps p es)) then 1 else 0)
    ∧ unmount f (Some b') = Normal (tt, Some b'')
    ∧ listenersHeld (calls b) (calls b'') 0.
Proof.
  destruct (session_subscribed p es b) as (f & b' & Hrun & _ & Hc & Hh).
  unfold cfgOf in Hc, Hh. rewrite (session_lastProps _ _ _ _ _ Hrun) in Hc, Hh.
  destruct (followSystemTheme (finalConfig (lastProps p es))).
  - exists f, b', (logCall RemoveChangeListener b'). split_and!; try done.
    + unfold unmount. by rewrite Hc.
    + unfold listenersHeld in *. cbn. rewrite listenerAdds_app, listenerRemoves_app.
      cbn. lia.
  - exists f, b', b'. split_and!; try done. unfold unmount. by rewrite Hc.
Qed.

(** X7: when a render turns [followSystemTheme] off, the listener is removed
    and the system theme stays at the value it had, which need not be
    ["light"]; changes of the OS preference no longer reach the provider. *)
Theorem follow_turned_off (p q : ThemeProviderProps) (es : list Event)
    (b b1 : Browser) (f : Fiber) :
  session p es (Some b) = Normal (f, Some b1) →
  followOff q →
  ∃ f' b2, session p (es ++ [Rerender q]) (Some b) = Normal (f', Some b2)
    ∧ systemTheme f' = systemTheme f
    ∧ osEffectCleanup f' = false
    ∧ calls b2 = calls b1
        ++ (if osEffectCleanup f then [RemoveChangeListener] else [])
        ++ syncCalls (finalConfig q) (theme f) (effectiveTheme (theme f) (systemTheme f))
    ∧ ∀ m, ∃ b3, session p (es ++ [Rerender q; MediaChange m]) (Some b)
                 = Normal (f', Some b3).
Proof.
  intros Hrun Hq. pose proof (session_result _ _ _ _ _ Hrun) as HI.
  destruct (session_subscribed p es b) as (f0 & b0 & Hrun0 & _ & Hsub & _).
  rewrite Hrun in Hrun0. injection Hrun0 as <- <-.
  destruct (Inv_cells _ _ HI) as (_ & _ & Hdeps). rewrite <- Hsub in Hdeps.
  destruct (dispatch_exact (Rerender q) f b1 HI) as (f' & b2 & Hd & _ & Hm).
  pose proof (session_snoc _ _ (Rerender q) _ _ _ Hrun) as Hrun'. rewrite Hd in Hrun'.
  cbn [Moved] in Hm. destruct Hm as (_ & _ & Hs & Hc & _ & _ & _ & Hk).
  unfold followOff in Hq. unfold resubscribes in *. rewrite Hq, Hdeps in *. cbn in Hs.
  assert (Hcl : osEffectCleanup f' = false).
  { rewrite Hc. destruct (osEffectCleanup f).
    - by rewrite bool_decide_eq_true_2.
    - by rewrite bool_decide_eq_false_2 by (intros H; by apply H). }
  assert (Hsys : systemTheme f' = systemTheme f).
  { rewrite Hs. by rewrite andb_false_r. }
  exists f', b2. split_and!; try done.
  - rewrite Hk, Hsys, decide_True by done. rewrite andb_false_r. cbn [app].
    rewrite app_nil_r. f_equal. destruct (osEffectCleanup f).
    + by rewrite bool_decide_eq_true_2.
    + by rewrite bool_decide_eq_false_2 by (intros H; by apply H).
  - intros m. replace (es ++ [Rerender q; MediaChange m])
      with ((es ++ [Rerender q]) ++ [MediaChange m]) by (by rewrite <- app_assoc).
    rewrite (session_snoc _ _ (MediaChange m) _ _ _ Hrun').
    cbn [dispatch]. unfold mediaChange. rewrite Hcl. eauto.
Qed.

Lemma follow_turned_off_witness :
  ∃ f' b2,
    session defaultProps ([MediaChange true] ++ [Rerender (withConfig noFollowConfig)])
      (Some freshBrowser) = Normal (f', Some b2)
    ∧ systemTheme f' = "dark"
    ∧ osEffectCleanup f' = false
    ∧ ∀ m, ∃ b3,
        session defaultProps
          ([MediaChange true] ++ [Rerender (withConfig noFollowConfig); MediaChange m])
          (Some freshBrowser) = Normal (f', Some b3).
Proof.
  edestruct (follow_turned_off defaultProps (withConfig noFollowConfig)
               [MediaChange true] freshBrowser) as (f' & b2 & Hrun & Hs & Hc & _ & Hm).
  - vm_compute. reflexivity.
  - reflexivity.
  - exists f', b2. split_and!; [exact Hrun | exact Hs | exact Hc | exact Hm].
Defined.

(** X8: a provider that starts with theme ["system"] and follows an OS that
    prefers dark applies the light class first: the second effect of the
    mount still sees the initial system theme ["light"], and only the
    render scheduled by the first effect replaces the light class by the
    dark one. *)
Theorem mount_system_dark_light_first (p : ThemeProviderProps) (b : Browser) :
  followOn p → prefersDark b = true →
  orDefault (localStorage b !! storageKey (finalConfig p))
    (default "light" (defaultTheme p)) = "system" →
  ∃ f b', mount p (Some b) = Normal (f, Some b')
    ∧ theme f = "system" ∧ systemTheme f = "dark"
    ∧ calls b' = calls b ++ [AddChangeListener]
        ++ syncCalls (finalConfig p) "system" "light"
        ++ syncCalls (finalConfig p) "system" "dark"
    ∧ appliedClass (finalConfig p) "light" = lightClass (finalConfig p)
    ∧ appliedClass (finalConfig p) "dark" = darkClass (finalConfig p)
    ∧ classList b' = syncTokens (finalConfig p) "dark"
                       (syncTokens (finalConfig p) "light" (classList b)).
Proof.
  intros Hp Hdark Hinit. destruct (mount_exact p b) as (f & b' & Hm & _ & Heff).
  exists f, b'. split; [done |]. rewrite Hinit in Heff.
  destruct Heff as (_ & Ht & Hs & _ & _ & _ & Hc & Hk).
  unfold followOn in Hp. unfold resubscribes in *. cbn in Ht, Hs, Hc, Hk.
  rewrite Hp, Hdark in *. rewrite bool_decide_eq_true_2 in * by done.
  cbn in Hs, Hc, Hk. rewrite Hs in Hc, Hk.
  destruct (decide ("dark" = "light")) as [Hx | _]; [discriminate Hx |].
  split_and!; done.
Qed.

Lemma mount_system_dark_light_first_witness :
  ∃ f b',
    mount {| defaultTheme := Some "system"; config := None |} (Some darkOsBrowser)
    = Normal (f, Some b')
    ∧ calls b' = [AddChangeListener;
                  ClassListRemove ["light"; "dark"; "system"]; ClassListAdd "light";
                  SetItem "theme" "system";
                  ClassListRemove ["light"; "dark"; "system"]; ClassListAdd "dark";
                  SetItem "theme" "system"]
    ∧ classList b' = ["dark"].
Proof.
  edestruct (mount_system_dark_light_first
               {| defaultTheme := Some "system"; config := None |} darkOsBrowser)
    as (f & b' & Hm & _ & _ & Hk & _ & _ & Hc); [reflexivity .. |].
  exists f, b'. split_and!; [exact Hm | exact Hk | exact Hc].
Defined.

(** ** Further properties: the theme *)



(** X10: the context value is well typed as far as the provider controls it:
    the published system theme is always ["light"] or ["dark"], the
    published effective theme is so whenever the theme is one of the three
    literals, and the published configuration is the six defaults
    overridden by the [config] of the most recent props. *)
Theorem published_well_typed (p : ThemeProviderProps) (es : list Event) (w : World) :
  ∃ f w' v, session p es w = Normal (f, w')
    ∧ published f = Some v
    ∧ (ThemeContextType.systemTheme v = "light"
       ∨ ThemeContextType.systemTheme v = "dark")
    ∧ (isTheme (theme f) →
       ThemeContextType.effectiveTheme v = "light"
       ∨ ThemeContextType.effectiveTheme v = "dark")
    ∧ ThemeContextType.config v = finalConfig (lastProps p es).
Proof.
  destruct (session_spec p es w) as (f & w' & Hrun & HI & _).
  destruct (published_value f _ HI) as (v & Hpub & _ & Hs & He & Hc).
  pose proof HI as (_ & _ & _ & Hsys & _).
  exists f, w', v. split_and!; try done.
  - by rewrite Hs.
  - intros Ht. rewrite He. by apply effective_of_theme.
  - rewrite Hc. unfold cfgOf. by rewrite (session_lastProps _ _ _ _ _ Hrun).
Qed.

(** X11: a change of the OS preference never alters the selected theme nor
    the stored value: it moves the system theme only. *)
Theorem os_change_keeps_choice (p : ThemeProviderProps) (es : list Event) (m : bool)
    (b : Browser) :
  ∃ f0 b0 f b',
    session p es (Some b) = Normal (f0, Some b0)
    ∧ session p (es ++ [MediaChange m]) (Some b) = Normal (f, Some b')
    ∧ theme f = theme f0
    ∧ props f = props f0
    ∧ localStorage b' = localStorage b0.
Proof.
  destruct (session_browser p es b) as (f0 & b0 & Hrun & HI0).
  destruct (dispatch_exact (MediaChange m) f0 b0 HI0) as (f & b' & Hd & _ & Hm).
  exists f0, b0, f, b'. rewrite (session_snoc _ _ _ _ _ _ Hrun). split_and!; try done.
  - destruct Hm as [(_ & -> & _) | (_ & _ & _ & Ht & _)]; done.
  - destruct Hm as [(_ & -> & _) | (_ & _ & Hp & _)]; done.
  - destruct HI0 as (_ & _ & _ & _ & _ & _ & Hst).
    destruct Hm as [(_ & _ & ->) | (_ & _ & _ & _ & _ & _ & _ & Hl & _)]; [done |].
    rewrite Hl. cbn. by apply insert_id.
Qed.

(** ** Further properties: without a window *)

Lemma render_noWindow_system (p : ThemeProviderProps) (f f' : Fiber) (w' : World) :
  osEffectCleanup f = false →
  render p f None = Normal (f', w') → systemTheme f' = systemTheme f.
Proof.
  intros Hcl. unfold render. rewrite Hcl.
  destruct (decide (osEffectDeps f = Some (followSystemTheme (finalConfig p)))).
  - erewrite bind_Normal by reflexivity. cbn beta iota.
    erewrite bind_Normal; [| case_decide; [reflexivity | apply syncEffect_noWindow]].
    by intros [= <- <-].
  - erewrite bind_Normal; cycle 1.
    { erewrite bind_Normal with (w' := None); [apply osEffect_noWindow | reflexivity]. }
    cbn beta iota.
    erewrite bind_Normal; [| case_decide; [reflexivity | apply syncEffect_noWindow]].
    by intros [= <- <-].
Qed.

Lemma renderAndCommit_noWindow (p : ThemeProviderProps) (f : Fiber) :
  idsBounded f → osEffectCleanup f = false →
  (systemTheme f = "light" ∨ systemTheme f = "dark") →
  ∃ f', renderAndCommit p f None = Normal (f', None)
    ∧ Inv f' None ∧ systemTheme f' = systemTheme f.
Proof.
  intros Hids Hcl Hsys.
  destruct (renderAndCommit_spec p f None Hids) as (f' & w' & Hrc & HI & Hw & _);
    [done .. |].
  destruct Hw as [Hw _]. specialize (Hw eq_refl). subst w'.
  exists f'. split_and!; try done.
  revert Hrc. unfold renderAndCommit.
  destruct (render_spec p f None Hids) as (f1 & w1 & Hr1 & _); [done |].
  erewrite bind_Normal by exact Hr1.
  pose proof (render_noWindow_system p f f1 w1 Hcl Hr1) as Hs1.
  rewrite decide_True by done. by intros [= <- _].
Qed.

Lemma session_noWindow (p : ThemeProviderProps) (es : list Event) :
  ∃ f, session p es None = Normal (f, None) ∧ Inv f None ∧ systemTheme f = "light".
Proof.
  assert (Hmount : ∃ f0, mount p None = Normal (f0, None) ∧ Inv f0 None
                         ∧ systemTheme f0 = "light").
  { unfold mount. erewrite bind_Normal by reflexivity.
    destruct (renderAndCommit_noWindow p
                (initialCells p (default "light" (defaultTheme p))))
      as (f0 & Hr & HI & Hs); [split; intros; discriminate | done | by left |].
    by exists f0. }
  destruct Hmount as (f0 & Hm & HI0 & Hs0).
  destruct (run_invariant (λ f w, w = None ∧ Inv f None ∧ systemTheme f = "light")
              (λ _, True)) with (es := es) (f := f0) (w := @None Browser)
    as (f & w' & Hr & -> & HI & Hs); [| by apply Forall_true | done |].
  - intros e f1 w1 _ (-> & HI1 & Hs1).
    destruct (dispatch_spec e f1 None HI1) as (f2 & w2 & Hd & HI2 & Hw & _ & _ & Hst & _).
    destruct Hw as [Hw _]. specialize (Hw eq_refl). subst w2.
    exists f2, None. split_and!; try done.
    destruct e as [t | | m | q]; try congruence.
    + cbn in Hd. by injection Hd as <-.
    + pose proof HI1 as (Hids & _ & _ & Hsys & Hcl & _).
      destruct (renderAndCommit_noWindow q f1 Hids (Hcl eq_refl) Hsys) as (f3 & Hr3 & _ & Hs3).
      cbn [dispatch] in Hd. rewrite Hr3 in Hd. injection Hd as <-. congruence.
  - exists f. split; [| done]. unfold session. by erewrite bind_Normal.
Qed.

(** X12: without a window the provider still works in memory: [setTheme]
    takes effect and is published, while the system theme stays ["light"]
    whatever the configuration says, so a theme of ["system"] is published
    as effective theme ["light"]. *)
Theorem no_window_in_memory (p : ThemeProviderProps) (es : list Event) (m : string) :
  ∃ f v, session p (es ++ [SetTheme m]) None = Normal (f, None)
    ∧ theme f = m ∧ systemTheme f = "light"
    ∧ published f = Some v
    ∧ ThemeContextType.theme v = m
    ∧ ThemeContextType.systemTheme v = "light"
    ∧ (m = "system" → ThemeContextType.effectiveTheme v = "light")
    ∧ (m ≠ "system" → ThemeContextType.effectiveTheme v = m).
Proof.
  destruct (session_noWindow p (es ++ [SetTheme m])) as (f & Hrun & HI & Hs).
  destruct (session_spec p es None) as (f0 & w0 & Hrun0 & HI0 & _).
  destruct (dispatch_spec (SetTheme m) f0 w0 HI0) as (f1 & w1 & Hd & _ & _ & Ht & _).
  rewrite (session_snoc _ _ (SetTheme m) _ _ _ Hrun0), Hd in Hrun.
  injection Hrun as -> ->. cbn in Ht.
  destruct (published_value f _ HI) as (v & Hpub & Htv & Hsv & He & _).
  exists f, v. rewrite (session_snoc _ _ (SetTheme m) _ _ _ Hrun0).
  split_and!; try done; try congruence.
  - intros ->. rewrite He, Ht, Hs. reflexivity.
  - intros Hne. rewrite He, Ht. unfold effectiveTheme. by rewrite decide_False.
Qed.

(** X13: a theme that is none of the three literals is published as
    effective theme as it is, and puts the system class on the root: with
    a system class name that differs from the light and dark names (and
    from the marker where the marker is in use), the root then carries the
    system class and neither the light nor the dark class. *)
Theorem invalid_theme_applies_system_class (p : ThemeProviderProps)
    (es : list Event) (b b' : Browser) (f : Fiber) :
  session p es (Some b) = Normal (f, Some b') →
  ¬ isTheme (theme f) →
  lightClass (cfgOf f) ≠ systemClass (cfgOf f) →
  darkClass (cfgOf f) ≠ systemClass (cfgOf f) →
  (disableTransition (cfgOf f) = true → systemClass (cfgOf f) ≠ "no-transitions") →
  effectiveTheme (theme f) (systemTheme f) = theme f
  ∧ systemClass (cfgOf f) ∈ classList b'
  ∧ (lightClass (cfgOf f) ∉ classList b')
  ∧ (darkClass (cfgOf f) ∉ classList b').
Proof.
  intros Hrun Hno Hl Hd Hn. pose proof (session_result _ _ _ _ _ Hrun) as HI.
  destruct HI as (_ & _ & _ & _ & _ & [l0 Hl0] & _).
  assert (Hne : theme f ≠ "light" ∧ theme f ≠ "dark" ∧ theme f ≠ "system").
  { split_and!; intros Heq; apply Hno;
      [by exists Light | by exists Dark | by exists System]. }
  destruct Hne as (Hnl & Hnd & Hns).
  assert (He : effectiveTheme (theme f) (systemTheme f) = theme f).
  { unfold effectiveTheme. by rewrite decide_False. }
  assert (Ha : appliedClass (cfgOf f) (theme f) = systemClass (cfgOf f)).
  { unfold appliedClass. by rewrite !decide_False. }
  rewrite Hl0, He. split; [done |]. split_and!.
  - rewrite <- Ha. apply syncTokens_applied. by rewrite Ha.
  - apply syncTokens_others; [by repeat constructor | by rewrite Ha].
  - apply syncTokens_others; [by repeat constructor | by rewrite Ha].
Qed.

Lemma invalid_theme_applies_system_class_witness :
  ∃ f b', session defaultProps [SetTheme "sepia"] (Some freshBrowser)
          = Normal (f, Some b')
    ∧ "system" ∈ classList b' ∧ ("light" ∉ classList b') ∧ ("dark" ∉ classList b').
Proof.
  eexists _, _. split; [vm_compute; reflexivity |].
  edestruct (invalid_theme_applies_system_class defaultProps [SetTheme "sepia"]
               freshBrowser) as (_ & Hs & Hl & Hd).
  - vm_compute. reflexivity.
  - intros [[] H]; discriminate H.
  - discriminate.
  - discriminate.
  - discriminate.
  - split_and!; [exact Hs | exact Hl | exact Hd].
Defined.
